(** * EchoVerse: the audiobook tool (main.py) and the story generator (title.py)

    A shallow embedding of the two front-ends.  Both are straight-line
    scripts around two blocking remote calls, so the embedding is a small
    state-and-exception monad over an explicit trace of the observable
    effects (UI messages, model calls, HTTP requests) together with an
    oracle [World] that answers the remote calls.

    Conventions.  Arguments that the source tests for truth before use
    ([text_to_rewrite], [text_to_speak], [voice_id]) are [option str], [None]
    being Python's [None].  Widgets only rendered (titles, headers, text
    areas, the spinner, the audio players) leave no event.  Building a
    [GenerativeModel] object and formatting strings do not fail. *)

From Stdlib Require Import ZArith NArith QArith String Ascii DecimalString.
From Stdlib Require DecimalZ.
From stdpp Require Import base option list gmap.

Local Open Scope list_scope.
Local Open Scope N_scope.
Set Warnings "-register-all".

(** ** Python values *)

Module Py.

(** A Python [str] is a sequence of Unicode code points. *)
Abbreviation str := (list N).
(** A Python [bytes] object. *)
Abbreviation bytes := (list Byte.byte).

(** An ASCII literal of the source as a [str]. *)
Fixpoint lit (s : string) : str :=
  match s with
  | EmptyString => []
  | String a s' => N_of_ascii a :: lit s'
  end.

Global Arguments lit : simpl never.
Global Opaque lit.

Definition dquote : str := [34].
Definition newline : str := [10].
Definition backtick : str := [96].

(** [str.isspace] on one code point: the code points CPython classifies as
    whitespace. *)
Definition isspace (c : N) : bool :=
  ((9 <=? c) && (c <=? 13)) || ((28 <=? c) && (c <=? 32))
  || (c =? 133) || (c =? 160) || (c =? 5760)
  || ((8192 <=? c) && (c <=? 8202))
  || (c =? 8232) || (c =? 8233) || (c =? 8239) || (c =? 8287) || (c =? 12288).

Fixpoint lstrip (s : str) : str :=
  match s with
  | [] => []
  | c :: s' => if isspace c then lstrip s' else s
  end.

Definition rstrip (s : str) : str := rev (lstrip (rev s)).

(** [s.strip()] with no argument. *)
Definition strip (s : str) : str := lstrip (rstrip s).

(** Truth value testing ([if x:], [not x], [x and y]). *)
Class Truthy (A : Type) := truthy : A → bool.
Global Hint Mode Truthy ! : typeclass_instances.

(** Sequences ([str], [bytes], [list]) are true when non-empty. *)
Global Instance truthy_seq {A} : Truthy (list A) :=
  λ l, match l with [] => false | _ :: _ => true end.
(** [None] is false; any other object follows its own rule. *)
Global Instance truthy_optional {A} `{Truthy A} : Truthy (option A) :=
  λ o, match o with None => false | Some a => truthy a end.

(** [str(n)] and [f"{n}"] for an [int]. *)
Definition str_of_int (n : Z) : str := lit (NilZero.string_of_int (Z.to_int n)).

(** [f"{v}"] for a value that is a [str] or [None]. *)
Definition format (v : option str) : str :=
  match v with
  | None => lit "None"
  | Some s => s
  end.

(** Exceptions derived from [Exception]; [exn_str e] is [str(e)]. *)
Record exn := Exception { exn_str : str }.

(** JSON-serialisable values (the [json=] argument of [requests.post]).
    Objects keep the insertion order of the [dict] literal. *)
Inductive json :=
| JNull
| JNum (q : Q)
| JStr (s : str)
| JObj (items : list (str * json)).

Definition to_json (v : option str) : json :=
  match v with
  | None => JNull
  | Some s => JStr s
  end.

(** [l.insert(i, x)] for [0 <= i]. *)
Definition list_insert_at {A} (i : nat) (x : A) (l : list A) : list A :=
  take i l ++ x :: drop i l.

End Py.
Import Py.

(** ** Observable effects and the outside world *)

Record GenerationConfig := {
  temperature : Q;
  top_p : Q;
  max_output_tokens : Z
}.

(** What [model.generate_content] hands back. *)
Inductive response :=
| RespText (text : str)        (** [response.text] evaluates to [text] *)
| RespBlocked (e : exn)        (** the [text] accessor raises [e], not an [AttributeError] *)
| RespNoText (e : exn).        (** falsy or without a [text] attribute; reading
                                   [response.text] raises the [AttributeError] [e] *)

Inductive llm_outcome :=
| LlmReturns (r : response)
| LlmRaises (e : exn).

(** What [requests.post] hands back. *)
Record http_response := {
  status_code : Z;
  content : bytes;
  text : str
}.

Inductive http_outcome :=
| HttpReturns (r : http_response)
| HttpRaises (e : exn).

Inductive event :=
| GenaiConfigure (api_key : str)
| GenerateContent (model_name prompt : str) (generation_config : option GenerationConfig)
| RequestsGet (url : str) (headers : list (str * str))
| RequestsPost (url : str) (body : json) (headers : list (str * str))
| StError (msg : str)
| StWarning (msg : str)
| StSuccess (msg : str)
| Print (msg : str)
| AppLaunch.

(** The outside world answers each remote call from the interaction so far,
    so that the same request may succeed once and fail the next time. *)
Record World := {
  dotenv : gmap str str;
  genai_configure : list event → str → option exn;
  generate_content : list event → str → str → option GenerationConfig → llm_outcome;
  requests_post : list event → str → json → list (str * str) → http_outcome
}.

(** One narration record of the history list. *)
Record entry := {
  original_text : str;
  rewritten_text : option str;
  tone : str;
  voice_name : str;
  audio_data : option bytes
}.

Record state := {
  trace : list event;
  environ : gmap str str;          (** [os.environ] *)
  resource_cache : option str;     (** [st.cache_resource] entry of [configure_apis] *)
  history : option (list entry)    (** [None]: no ['history'] key in the session state *)
}.

Definition set_trace (t : list event) (s : state) : state :=
  {| trace := t; environ := environ s;
     resource_cache := resource_cache s; history := history s |}.
Definition set_environ (e : gmap str str) (s : state) : state :=
  {| trace := trace s; environ := e;
     resource_cache := resource_cache s; history := history s |}.
Definition set_resource_cache (c : option str) (s : state) : state :=
  {| trace := trace s; environ := environ s;
     resource_cache := c; history := history s |}.
Definition set_history (h : option (list entry)) (s : state) : state :=
  {| trace := trace s; environ := environ s;
     resource_cache := resource_cache s; history := h |}.

(** ** The effect monad *)

Inductive outcome (A : Type) :=
| Return (a : A)
| Raise (e : exn)
| Stop.                          (** [st.stop()]: the script run ends here *)
Arguments Return {A} a.
Arguments Raise {A} e.
Arguments Stop {A}.

Definition M (A : Type) : Type := state → outcome A * state.

Definition ret {A} (a : A) : M A := λ s, (Return a, s).

Definition bind {A B} (m : M A) (k : A → M B) : M B :=
  λ s, match m s with
       | (Return a, s') => k a s'
       | (Raise e, s') => (Raise e, s')
       | (Stop, s') => (Stop, s')
       end.

Notation "'let*' x ':=' m 'in' k" := (bind m (λ x, k))
  (at level 10, x name, m at level 100, k at level 200, right associativity).
Notation "'let*' ' pat ':=' m 'in' k" := (bind m (λ x, match x with pat => k end))
  (at level 10, pat pattern, m at level 100, k at level 200, right associativity).
Notation "m ';;' k" := (bind m (λ _, k))
  (at level 100, k at level 200, right associativity).

Definition raise {A} (e : exn) : M A := λ s, (Raise e, s).

(** [try: body except Exception as e: handler e].  [st.stop()] is a script
    control signal outside the [Exception] hierarchy and passes through. *)
Definition try_except {A} (body : M A) (handler : exn → M A) : M A :=
  λ s, match body s with
       | (Raise e, s') => handler e s'
       | r => r
       end.

Definition emit (ev : event) : M unit :=
  λ s, (Return (), set_trace (trace s ++ [ev]) s).

Definition st_error (msg : str) : M unit := emit (StError msg).
Definition st_warning (msg : str) : M unit := emit (StWarning msg).
Definition st_success (msg : str) : M unit := emit (StSuccess msg).
Definition st_stop {A} : M A := λ s, (Stop, s).
Definition print (msg : str) : M unit := emit (Print msg).

(** ** The remote calls *)

(** The model both programs ask for. *)
Definition gemini_model : str := lit "gemini-1.5-flash-latest".

Section Calls.
Variable w : World.

(** [genai.configure(api_key=...)]. *)
Definition genai_configure_call (api_key : str) : M unit :=
  λ s, let s' := set_trace (trace s ++ [GenaiConfigure api_key]) s in
       match genai_configure w (trace s) api_key with
       | None => (Return (), s')
       | Some e => (Raise e, s')
       end.

(** [model.generate_content(prompt, ...)] on a [GenerativeModel(model_name)]. *)
Definition generate_content_call (model_name prompt : str)
    (cfg : option GenerationConfig) : M response :=
  λ s, let s' := set_trace (trace s ++ [GenerateContent model_name prompt cfg]) s in
       match generate_content w (trace s) model_name prompt cfg with
       | LlmReturns r => (Return r, s')
       | LlmRaises e => (Raise e, s')
       end.

(** Reading [response.text]. *)
Definition response_text (r : response) : M str :=
  match r with
  | RespText t => ret t
  | RespBlocked e => raise e
  | RespNoText e => raise e
  end.

(** [response and hasattr(response, 'text')]: [hasattr] answers [False] on
    an [AttributeError] only; any other exception of the accessor escapes. *)
Definition response_has_text (r : response) : M bool :=
  match r with
  | RespText _ => ret true
  | RespBlocked e => raise e
  | RespNoText _ => ret false
  end.

(** [requests.post(url, json=body, headers=headers)]. *)
Definition requests_post_call (url : str) (body : json) (headers : list (str * str))
    : M http_response :=
  λ s, let s' := set_trace (trace s ++ [RequestsPost url body headers]) s in
       match requests_post w (trace s) url body headers with
       | HttpReturns r => (Return r, s')
       | HttpRaises e => (Raise e, s')
       end.

End Calls.

(** ** main.py: the audiobook tool *)

Module Main.

(** The five options of the tone selector. *)
Inductive Tone := Neutral | Suspenseful | Inspiring | Professional | Poetic.

Definition tone_label (t : Tone) : str :=
  match t with
  | Neutral => lit "Neutral"
  | Suspenseful => lit "Suspenseful"
  | Inspiring => lit "Inspiring"
  | Professional => lit "Professional"
  | Poetic => lit "Poetic"
  end.

(** What the input layer (lines 109-126) finds in this run. *)
Inductive text_input :=
| PasteText (value : str)           (** content of the text area *)
| NoUpload                          (** upload chosen, no file given *)
| Upload (decoded : exn + str).     (** [uploaded_file.read().decode("utf-8")] *)

(** What one run of the script reads from the page. *)
Record page := {
  input_method : text_input;
  tone_choice : Tone;
  (** Lines 136-142 after the GET is issued (status check, JSON decoding,
      lookup of the voice picked in the selector): the exception they end
      in, or the picked name with its identifier. *)
  voice_choice : exn + (str * option str);
  button : bool                     (** [Generate Audiobook] was pressed *)
}.

(** [st.session_state.history] read before the key exists. *)
Definition no_history_attribute : exn :=
  Exception (lit "st.session_state has no attribute 'history'").

Section WithWorld.
Variable w : World.

(** [load_dotenv()]: variables of the .env file are added to the process
    environment; variables already set are kept. *)
Definition load_dotenv : M unit :=
  λ s, (Return (), set_environ (environ s ∪ dotenv w) s).

Definition os_getenv (name : str) : M (option str) :=
  λ s, (Return (environ s !! name), s).

Definition configure_apis : M str :=
  load_dotenv ;;
  let* google_api_key := os_getenv (lit "GOOGLE_API_KEY") in
  let* elevenlabs_api_key := os_getenv (lit "ELEVENLABS_API_KEY") in
  match google_api_key with
  | None | Some [] =>
      st_error (lit "Google AI API Key is missing. Please check your .env file.") ;;
      st_stop
  | Some google_api_key =>
      match elevenlabs_api_key with
      | None | Some [] =>
          st_error (lit "ElevenLabs API Key is missing. Please check your .env file.") ;;
          st_stop
      | Some elevenlabs_api_key =>
          try_except
            (genai_configure_call w google_api_key)
            (λ e, st_error (lit "Failed to configure Google Gemini API: " ++ exn_str e) ;;
                  st_stop) ;;
          ret elevenlabs_api_key
      end
  end.

(** [@st.cache_resource]: the body runs until it has returned once; from
    then on the returned value is served from the cache. *)
Definition cache_resource (body : M str) : M str :=
  λ s, match resource_cache s with
       | Some v => (Return v, s)
       | None =>
           match body s with
           | (Return v, s') => (Return v, set_resource_cache (Some v) s')
           | r => r
           end
       end.

(** Module level, lines 35-38. *)
Definition startup : M str :=
  try_except (cache_resource configure_apis) (λ _, st_stop).

Definition rewrite_prompt (tone : str) (text_to_rewrite : option str) : str :=
  lit "You are a master storyteller. Rewrite the following text in a '" ++ tone
  ++ lit "' tone, preserving the original meaning but enhancing the style. Return only the rewritten text."
  ++ newline
  ++ lit "    ORIGINAL TEXT: " ++ dquote ++ format text_to_rewrite ++ dquote ++ newline
  ++ lit "    REWRITTEN TEXT:".

Definition rewrite_text_with_llm (text_to_rewrite : option str) (tone : str)
    : M (option str) :=
  if negb (truthy text_to_rewrite) then ret (Some [])
  else
    let model := lit "gemini-1.5-flash-latest" in
    let prompt := rewrite_prompt tone text_to_rewrite in
    try_except
      (let* response := generate_content_call w model prompt None in
       let* t := response_text response in
       ret (Some (strip t)))
      (λ e, st_error (lit "Error rewriting text with Gemini: " ++ exn_str e) ;;
            ret None).

(** The three locals of [convert_text_to_speech], lines 64-81. *)
Definition tts_url (voice_id : option str) : str :=
  lit "https://api.elevenlabs.io/v1/text-to-speech/" ++ format voice_id.

Definition tts_headers (api_key : str) : list (str * str) :=
  [ (lit "Accept", lit "audio/mpeg");
    (lit "Content-Type", lit "application/json");
    (lit "xi-api-key", api_key) ].

Definition tts_data (text_to_speak : option str) : json :=
  JObj [ (lit "text", to_json text_to_speak);
         (lit "model_id", JStr (lit "eleven_multilingual_v2"));
         (lit "voice_settings",
          JObj [ (lit "stability", JNum 0.5);
                 (lit "similarity_boost", JNum 0.75) ]) ].

Definition convert_text_to_speech (api_key : str) (text_to_speak voice_id : option str)
    : M (option bytes) :=
  if negb (truthy text_to_speak) || negb (truthy voice_id) then ret None
  else
    let tts_url := tts_url voice_id in
    let headers := tts_headers api_key in
    let data := tts_data text_to_speak in
    try_except
      (let* response := requests_post_call w tts_url data headers in
       if (status_code response =? 200)%Z then
         ret (Some (content response))
       else
         st_error (lit "ElevenLabs API Error: " ++ str_of_int (status_code response)
                   ++ lit " - " ++ text response) ;;
         ret None)
      (λ e, st_error (lit "An error occurred while calling the ElevenLabs API: " ++ exn_str e) ;;
            ret None).

(** Lines 104-105. *)
Definition init_history : M unit :=
  λ s, match history s with
       | None => (Return (), set_history (Some []) s)
       | Some _ => (Return (), s)
       end.

(** Lines 116-126: the value [original_text] has after the input layer. *)
Definition input_layer (i : text_input) : M str :=
  let original_text := [] in
  match i with
  | PasteText value => ret value
  | NoUpload => ret original_text
  | Upload decoded =>
      try_except
        (match decoded with
         | inl e => raise e
         | inr t => ret t
         end)
        (λ e, st_error (lit "Error reading file: " ++ exn_str e) ;;
              ret original_text)
  end.

(** Lines 135-145. *)
Definition voice_layer (ELEVENLABS_API_KEY : str) (v : exn + (str * option str))
    : M (str * option str) :=
  try_except
    (emit (RequestsGet (lit "https://api.elevenlabs.io/v1/voices")
                       [ (lit "xi-api-key", ELEVENLABS_API_KEY) ]) ;;
     match v with
     | inl e => raise e
     | inr choice => ret choice
     end)
    (λ e, st_error (lit "Could not fetch voices. Check network/API key. Error: " ++ exn_str e) ;;
          st_stop).

(** [st.session_state.history.insert(0, entry)]. *)
Definition history_insert (i : nat) (e : entry) : M unit :=
  λ s, match history s with
       | Some h => (Return (), set_history (Some (list_insert_at i e h)) s)
       | None => (Raise no_history_attribute, s)
       end.

(** Lines 148-159, the body run when the button was pressed. *)
Definition generate_audiobook (ELEVENLABS_API_KEY original_text selected_tone
    selected_voice_name : str) (selected_voice_id : option str) : M unit :=
  if truthy original_text && truthy selected_voice_id then
    let* rewritten_text := rewrite_text_with_llm (Some original_text) selected_tone in
    if truthy rewritten_text then
      let* audio_data :=
        convert_text_to_speech ELEVENLABS_API_KEY rewritten_text selected_voice_id in
      if truthy audio_data then
        st_success ([9989] ++ lit " Audiobook generated successfully!") ;;
        let entry := {| original_text := original_text;
                        rewritten_text := rewritten_text;
                        tone := selected_tone;
                        voice_name := selected_voice_name;
                        audio_data := audio_data |} in
        history_insert 0 entry
      else ret ()
    else ret ()
  else
    st_warning (lit "Please provide text to continue.").

(** One run of the script, top to bottom.  The two display sections at the
    end (lines 161-192) only read the history and are left out. *)
Definition script (p : page) : M unit :=
  let* ELEVENLABS_API_KEY := startup in
  init_history ;;
  let* original_text := input_layer (input_method p) in
  let selected_tone := tone_label (tone_choice p) in
  let* '(selected_voice_name, selected_voice_id) :=
    voice_layer ELEVENLABS_API_KEY (voice_choice p) in
  if button p then
    generate_audiobook ELEVENLABS_API_KEY original_text selected_tone
                       selected_voice_name selected_voice_id
  else ret ().

(** A session: the script runs once per user interaction, each run starting
    from the state the previous one left. *)
Fixpoint session (ps : list page) (s : state) : state :=
  match ps with
  | [] => s
  | p :: ps' => session ps' (script p s).2
  end.

End WithWorld.

(** The record shown under "Your Latest Audiobook": [history[0]]. *)
Definition latest (s : state) : option entry :=
  h ← history s; h !! 0%nat.

End Main.

(** ** title.py: the story generator *)

Module Title.

(** Line 9, as shipped. *)
Definition shipped_GOOGLE_API_KEY : str := lit "".

Definition missing_key_message : str :=
  lit "--- " ++ newline
  ++ lit "**Error: Google AI API key is missing!**" ++ newline ++ newline
  ++ lit "1. Get a free API key from https://aistudio.google.com/app/apikey" ++ newline
  ++ lit "2. Paste it into the " ++ backtick ++ lit "GOOGLE_API_KEY" ++ backtick
  ++ lit " variable in the code." ++ newline
  ++ lit "3. Restart the application."
  ++ newline ++ lit "---".

Definition invalid_story_message : str :=
  lit "Error: The model did not return a valid story. This might be due to the safety filter "
  ++ lit "or an internal issue. Please try a different prompt.".

Definition story_prompt (prompt_text : str) : str :=
  lit "You are a master storyteller. Your task is to write a short, compelling, and creative fictional story based on the user's idea. The story should have a clear beginning, middle, and end."
  ++ newline ++ newline
  ++ lit "**User's Idea:** " ++ dquote ++ prompt_text ++ dquote ++ newline
  ++ newline
  ++ lit "**Your Story:**" ++ newline.

Definition story_config : GenerationConfig :=
  {| temperature := 0.8; top_p := 0.95; max_output_tokens := 1024 |}.

Section WithWorld.
Variable w : World.
(** The module constant of line 9, with whatever the user pasted into it. *)
Variable GOOGLE_API_KEY : str.

(** Lines 12-16. *)
Definition configure : M unit :=
  try_except
    (genai_configure_call w GOOGLE_API_KEY)
    (λ e, print (lit "Error configuring Google AI: " ++ exn_str e)).

Definition generate_fictional_story (prompt_text : str) : M str :=
  if negb (truthy GOOGLE_API_KEY) then ret missing_key_message
  else
    let full_prompt := story_prompt prompt_text in
    try_except
      (let model := lit "gemini-1.5-flash-latest" in
       let* response := generate_content_call w model full_prompt (Some story_config) in
       let* has_text := response_has_text response in
       if has_text then
         let* t := response_text response in
         ret (strip t)
       else
         ret invalid_story_message)
      (λ e, ret (lit "An unexpected error occurred with the Google AI API: " ++ exn_str e)).

(** The module run as a program: configuration, then the interface is built
    and served. *)
Definition startup : M unit :=
  configure ;;
  emit AppLaunch.

End WithWorld.
End Title.

(** ** main.py: the voice catalog (lines 135-142) in detail *)

Module Voices.

(** [d[k] = v] on a [dict] kept as its items in insertion order: a key
    already present keeps its place and takes the new value. *)
Fixpoint dict_set {V} (k : str) (v : V) (d : list (str * V)) : list (str * V) :=
  match d with
  | [] => [(k, v)]
  | (k', v') :: d' =>
      if decide (k' = k) then (k', v) :: d' else (k', v') :: dict_set k v d'
  end.

Fixpoint dict_get {V} (k : str) (d : list (str * V)) : option V :=
  match d with
  | [] => None
  | (k', v') :: d' => if decide (k' = k) then Some v' else dict_get k d'
  end.

(** [{voice['name']: voice['voice_id'] for voice in voices_data}], for a
    catalog whose entries carry a [name] string and a [voice_id] that is a
    string or null. *)
Definition voice_map (voices_data : list (str * option str)) : list (str * option str) :=
  foldl (λ d voice, dict_set voice.1 voice.2 d) [] voices_data.

(** [list(voice_map.keys())]. *)
Definition options (voices_data : list (str * option str)) : list str :=
  (voice_map voices_data).*1.

(** [st.selectbox(label, options)]: the option at the position the user
    picked, [None] when there is nothing to pick from. *)
Definition selectbox (options : list str) (index : nat) : option str :=
  options !! index.

(** [KeyError(k)]; [str] of it is [repr(k)], written out for [None] and for
    names without quotes or escapes. *)
Definition KeyError (k : option str) : exn :=
  Exception match k with
            | None => lit "None"
            | Some name => [39] ++ name ++ [39]
            end.

(** Lines 136-142.  [fetched] is what lines 136-138 end in: the exception
    of the GET, of the status check or of the decoding, or the [voices]
    array. *)
Definition voice_block (fetched : exn + list (str * option str)) (index : nat)
    : exn + (str * option str) :=
  match fetched with
  | inl e => inl e
  | inr voices_data =>
      let voice_map := voice_map voices_data in
      let selected_voice_name := selectbox voice_map.*1 index in
      match selected_voice_name with
      | None => inl (KeyError None)
      | Some name =>
          match dict_get name voice_map with
          | Some selected_voice_id => inr (name, selected_voice_id)
          | None => inl (KeyError (Some name))
          end
      end
  end.

End Voices.

(** ** main.py: the two display sections (lines 161-192) *)

Module Display.

(** What a run puts on the page below the button. *)
Inductive widget :=
| Header (body : str)
| Subheader (body : str)
| TextArea (label : str) (value : option str) (key : str)
| Audio (data : option bytes) (format : str)
| DownloadButton (label : str) (data : option bytes) (file_name mime : str)
    (key : option str)
| Write (body : str)
| Container (children : list widget)
| Columns (columns : list (list widget))
| Expander (label : str) (children : list widget).

(** The explicit [key=] arguments on the page, in page order. *)
Fixpoint widget_keys (w : widget) : list str :=
  match w with
  | TextArea _ _ key => [key]
  | DownloadButton _ _ _ _ (Some key) => [key]
  | Container children | Expander _ children => flat_map widget_keys children
  | Columns columns => flat_map (flat_map widget_keys) columns
  | _ => []
  end.

(** Lines 162-176. *)
Definition latest_section (history : list entry) : list widget :=
  match history with
  | [] => []
  | latest :: _ =>
      [ Header (lit "3. Your Latest Audiobook");
        Container
          [ Columns
              [ [ Subheader (lit "Original Text");
                  TextArea (lit "Original") (Some (original_text latest))
                    (lit "latest_orig") ];
                [ Subheader (lit "Rewritten (Tone: " ++ tone latest ++ lit ")");
                  TextArea (lit "Rewritten") (rewritten_text latest)
                    (lit "latest_rewritten") ] ] ];
        Container
          [ Subheader (lit "Listen (Voice: " ++ voice_name latest ++ lit ")");
            Audio (audio_data latest) (lit "audio/mpeg");
            DownloadButton (lit "Download MP3") (audio_data latest)
              (lit "EchoVerse_" ++ tone latest ++ lit ".mp3") (lit "audio/mpeg") None ] ]
  end.

(** The number printed for the record at position [i] of [n]:
    [len(st.session_state.history) - i]. *)
Definition narration_number (n i : nat) : Z := Z.of_nat n - Z.of_nat i.

(** Lines 182-192: one pass of the loop, for the record at position [i] of
    a history of [n] records. *)
Definition narration (n i : nat) (e : entry) : widget :=
  Container
    [ Write (lit "**Narration " ++ str_of_int (narration_number n i)
             ++ lit "** | Tone: " ++ backtick ++ tone e ++ backtick
             ++ lit " | Voice: " ++ backtick ++ voice_name e ++ backtick);
      Audio (audio_data e) (lit "audio/mp3");
      DownloadButton (lit "Download this MP3") (audio_data e)
        (lit "EchoVerse_" ++ tone e ++ lit "_" ++ voice_name e ++ lit "_"
         ++ str_of_int (Z.of_nat i) ++ lit ".mp3")
        (lit "audio/mp3")
        (Some (lit "download_" ++ str_of_int (Z.of_nat i))) ].

(** Lines 179-192. *)
Definition past_narrations (history : list entry) : list widget :=
  if (0 <? length history)%nat then
    [ Expander ([128214] ++ lit " View Past Narrations ("
                ++ str_of_int (Z.of_nat (length history)) ++ lit ")")
        (imap (narration (length history)) history) ]
  else [].

End Display.

(** ** Reading a run *)

(** A state with further events on its trace. *)
Definition logged (evs : list event) (s : state) : state :=
  set_trace (trace s ++ evs) s.

(** The history list, empty before it is initialised. *)
Definition records (s : state) : list entry := default [] (history s).

(** The events a computation added to the trace. *)
Definition new_events (before after : state) : list event :=
  drop (length (trace before)) (trace after).

Definition is_post (ev : event) : bool :=
  match ev with RequestsPost _ _ _ => true | _ => false end.
Definition is_success (ev : event) : bool :=
  match ev with StSuccess _ => true | _ => false end.
Definition is_remote_call (ev : event) : bool :=
  match ev with
  | GenaiConfigure _ | GenerateContent _ _ _ | RequestsGet _ _ | RequestsPost _ _ _ => true
  | _ => false
  end.

(** A run that ended in [st.stop()] after showing an error. *)
Definition halts_with_diagnostic {A} (r : outcome A * state) (before : state) : Prop :=
  r.1 = Stop ∧ ∃ msg, StError msg ∈ new_events before r.2.

(** The exception behind a model call that yielded no text, if it did not. *)
Definition failure (o : llm_outcome) : option exn :=
  match o with
  | LlmReturns (RespText _) => None
  | LlmReturns (RespBlocked e) | LlmReturns (RespNoText e) | LlmRaises e => Some e
  end.

(** How many generations announced their success. *)
Definition successes (evs : list event) : nat := length (filter is_success evs).

(** The text the input layer of a page yields. *)
Definition page_text (p : Main.page) : str :=
  match Main.input_method p with
  | Main.PasteText value => value
  | Main.Upload (inr t) => t
  | Main.NoUpload | Main.Upload (inl _) => []
  end.

(** The record a run created: the head of the history after a run that
    showed the success message. *)
Definition generated (before after : state) : option entry :=
  if existsb is_success (new_events before after) then Main.latest after else None.

(** The records a session created, oldest first. *)
Fixpoint generations (w : World) (ps : list Main.page) (s : state) : list entry :=
  match ps with
  | [] => []
  | p :: ps' =>
      let s' := (Main.script w p s).2 in
      option_list (generated s s') ++ generations w ps' s'
  end.

(** A stretch of a run that shows no success message and leaves the history
    alone. *)
Definition quiet (s s' : state) : Prop :=
  ∃ evs, trace s' = trace s ++ evs
         ∧ filter is_success evs = [] ∧ history s' = history s.

(** What the handler shows on success. *)
Definition success_message : list event :=
  [StSuccess ([9989] ++ lit " Audiobook generated successfully!")].

(** A call that handed no text to its caller: it returned [None] or an
    empty value, or did not return. *)
Definition produces_no_text {A} `{Truthy A} (o : outcome A) : Prop :=
  match o with
  | Return a => truthy a = false
  | _ => True
  end.

(** Everything the two display sections show for a session state. *)
Definition display (s : state) : list Display.widget :=
  Display.latest_section (records s) ++ Display.past_narrations (records s).

Definition is_warning (ev : event) : bool :=
  match ev with StWarning _ => true | _ => false end.
Definition is_message (ev : event) : bool :=
  match ev with StError _ | StWarning _ | StSuccess _ => true | _ => false end.


(** The GET of the voice catalog as one run issues it. *)
Definition voices_request (api_key : str) : event :=
  RequestsGet (lit "https://api.elevenlabs.io/v1/voices") [ (lit "xi-api-key", api_key) ].

(** The state after lines 104-105. *)
Definition initialised (s : state) : state :=
  match history s with None => set_history (Some []) s | Some _ => s end.

(** What the input layer shows: the error of a file that does not decode. *)
Definition input_events (p : Main.page) : list event :=
  match Main.input_method p with
  | Main.Upload (inl e) => [StError (lit "Error reading file: " ++ exn_str e)]
  | _ => []
  end.

(** A record as a run with a selector tone fills it in. *)
Definition well_formed (e : entry) : Prop :=
  truthy (rewritten_text e) = true ∧ truthy (audio_data e) = true
  ∧ ∃ t, tone e = Main.tone_label t.

(** Worlds and states used in the examples. *)
Module Examples.

Definition boom : exn := Exception (lit "503 service unavailable").

Definition mp3 : bytes := [Byte.x49; Byte.x44; Byte.x33].

Definition keys : gmap str str :=
  {[ lit "GOOGLE_API_KEY" := lit "g-key"; lit "ELEVENLABS_API_KEY" := lit "xi-key" ]}.

(** Everything works: the model answers with padded text, synthesis with
    three bytes. *)
Definition good : World :=
  {| dotenv := keys;
     genai_configure := λ _ _, None;
     generate_content := λ _ _ _ _, LlmReturns (RespText (lit "  Once upon a time. " ++ newline));
     requests_post := λ _ _ _ _,
       HttpReturns {| status_code := 200; content := mp3; text := [] |} |}.

(** The model call raises. *)
Definition llm_down : World :=
  {| dotenv := keys;
     genai_configure := λ _ _, None;
     generate_content := λ _ _ _ _, LlmRaises boom;
     requests_post := requests_post good |}.

(** Synthesis answers 401. *)
Definition tts_401 : World :=
  {| dotenv := keys;
     genai_configure := λ _ _, None;
     generate_content := generate_content good;
     requests_post := λ _ _ _ _,
       HttpReturns {| status_code := 401; content := []; text := lit "unauthorized" |} |}.

(** The transport to the synthesis service fails. *)
Definition tts_down : World :=
  {| dotenv := keys;
     genai_configure := λ _ _, None;
     generate_content := generate_content good;
     requests_post := λ _ _ _ _, HttpRaises boom |}.

(** No .env file. *)
Definition no_keys : World :=
  {| dotenv := ∅;
     genai_configure := λ _ _, None;
     generate_content := generate_content good;
     requests_post := requests_post good |}.

Definition fresh : state :=
  {| trace := []; environ := ∅; resource_cache := None; history := None |}.

Definition ready : state :=
  {| trace := []; environ := keys; resource_cache := Some (lit "xi-key");
     history := Some [] |}.

Definition rachel : exn + (str * option str) :=
  inr (lit "Rachel", Some (lit "21m00")).

Definition press (t : str) : Main.page :=
  {| Main.input_method := Main.PasteText t;
     Main.tone_choice := Main.Suspenseful;
     Main.voice_choice := rachel;
     Main.button := true |}.

End Examples.


(** Further worlds, for the edge cases. *)
Module Scenarios.

(** The model answers with blanks only. *)
Definition blank_reply : World :=
  {| dotenv := Examples.keys;
     genai_configure := λ _ _, None;
     generate_content := λ _ _ _ _, LlmReturns (RespText ([32; 10; 9]));
     requests_post := requests_post Examples.good |}.

(** Synthesis answers 200 with an empty body. *)
Definition empty_audio : World :=
  {| dotenv := Examples.keys;
     genai_configure := λ _ _, None;
     generate_content := generate_content Examples.good;
     requests_post := λ _ _ _ _,
       HttpReturns {| status_code := 200; content := []; text := [] |} |}.

(** [genai.configure] raises. *)
Definition configure_fails : World :=
  {| dotenv := Examples.keys;
     genai_configure := λ _ _, Some Examples.boom;
     generate_content := generate_content Examples.good;
     requests_post := requests_post Examples.good |}.

(** A catalog in which one name comes twice. *)
Definition catalog : list (str * option str) :=
  [ (lit "Rachel", Some (lit "21m00")); (lit "Adam", Some (lit "pNInz"));
    (lit "Rachel", Some (lit "zzz99")) ].

(** A page on which the voice catalog could not be fetched. *)
Definition no_voices : Main.page :=
  {| Main.input_method := Main.PasteText (lit "Hi");
     Main.tone_choice := Main.Poetic;
     Main.voice_choice := inl Examples.boom;
     Main.button := true |}.

(** A page with an uploaded file that is not UTF-8. *)
Definition bad_upload : Main.page :=
  {| Main.input_method := Main.Upload (inl Examples.boom);
     Main.tone_choice := Main.Poetic;
     Main.voice_choice := Examples.rachel;
     Main.button := true |}.

(** A start with the keys in the process environment. *)
Definition cold : state :=
  {| trace := []; environ := Examples.keys; resource_cache := None; history := None |}.

(** A page for which the service returned an empty catalog. *)
Definition empty_catalog : Main.page :=
  {| Main.input_method := Main.PasteText (lit "Hi");
     Main.tone_choice := Main.Poetic;
     Main.voice_choice := Voices.voice_block (inr []) 0;
     Main.button := true |}.

(** A page on which the first name of [catalog] is picked. *)
Definition pick_first : Main.page :=
  {| Main.input_method := Main.PasteText (lit "Hi");
     Main.tone_choice := Main.Poetic;
     Main.voice_choice := Voices.voice_block (inr catalog) 0;
     Main.button := true |}.

End Scenarios.

(** * Properties *)

(** ** Strings *)

Lemma lstrip_split (s : str) :
  ∃ l, s = l ++ lstrip s ∧ forallb isspace l = true.
Proof.
  induction s as [|c s IH]; simpl.
  - by exists [].
  - destruct (isspace c) eqn:Hc.
    + destruct IH as (l & Hs & Hl). exists (c :: l). simpl.
      rewrite Hc, Hl. split; [by rewrite <- Hs | done].
    + by exists [].
Qed.

Lemma lstrip_head (s : str) (c : N) (t : str) :
  lstrip s = c :: t → isspace c = false.
Proof.
  induction s as [|d s IH]; simpl; [done|].
  destruct (isspace d) eqn:Hd; [done|].
  intros [= -> _]. done.
Qed.

Lemma lstrip_keeps_last (s : str) (c : N) :
  isspace c = false → lstrip (s ++ [c]) = lstrip s ++ [c].
Proof.
  intros Hc. induction s as [|d s IH]; simpl.
  - by rewrite Hc.
  - destruct (isspace d); [done | done].
Qed.

Lemma forallb_isspace_rev (l : str) :
  forallb isspace l = true → forallb isspace (rev l) = true.
Proof.
  rewrite !forallb_forall. intros H x Hx. apply H. by apply in_rev.
Qed.

Lemma rstrip_split (s : str) :
  ∃ r, s = rstrip s ++ r ∧ forallb isspace r = true.
Proof.
  unfold rstrip. destruct (lstrip_split (rev s)) as (l & Hs & Hl).
  exists (rev l). split; [|by apply forallb_isspace_rev].
  rewrite <- rev_app_distr, <- Hs. by rewrite rev_involutive.
Qed.

Lemma rstrip_last (s t : str) (c : N) :
  rstrip s = t ++ [c] → isspace c = false.
Proof.
  unfold rstrip. intros H.
  apply (f_equal (@rev N)) in H. rewrite rev_involutive, rev_app_distr in H. simpl in H.
  by apply lstrip_head in H.
Qed.

(** What [strip] returns: the input without a run of whitespace at each end,
    and with no whitespace left at either end. *)
Lemma strip_spec (s : str) :
  (∃ l r, s = l ++ strip s ++ r
          ∧ forallb isspace l = true ∧ forallb isspace r = true)
  ∧ (∀ c t, strip s = c :: t → isspace c = false)
  ∧ (∀ t c, strip s = t ++ [c] → isspace c = false).
Proof.
  unfold strip. split; [|split].
  - destruct (rstrip_split s) as (r & Hs & Hr).
    destruct (lstrip_split (rstrip s)) as (l & Hm & Hl).
    exists l, r. split; [|done].
    rewrite app_assoc, <- Hm. done.
  - intros c t. apply lstrip_head.
  - intros t c H.
    destruct (rstrip s) as [|d m _] eqn:Hm using rev_ind.
    + simpl in H. by destruct t.
    + destruct (isspace d) eqn:Hd.
      * apply rstrip_last in Hm. congruence.
      * rewrite lstrip_keeps_last in H by done.
        apply app_inj_tail in H as [_ <-]. done.
Qed.

Example strip_example :
  strip ([32; 9] ++ lit "a b" ++ [160; 10]) = lit "a b".
Proof. by vm_compute. Qed.

Example str_of_int_example : str_of_int 404 = lit "404".
Proof. by vm_compute. Qed.

(** ** Runs of the monad *)

Lemma logged_nil (s : state) : logged [] s = s.
Proof. destruct s. unfold logged, set_trace. simpl. by rewrite app_nil_r. Qed.

Lemma logged_logged (a b : list event) (s : state) :
  logged b (logged a s) = logged (a ++ b) s.
Proof. unfold logged, set_trace. simpl. by rewrite app_assoc. Qed.

Lemma new_events_logged (evs : list event) (s : state) :
  new_events s (logged evs s) = evs.
Proof. unfold new_events, logged. simpl. by rewrite drop_app_length. Qed.

Lemma new_events_same (s : state) : new_events s s = [].
Proof. unfold new_events. by rewrite drop_all. Qed.

Lemma trace_logged (evs : list event) (s : state) :
  trace (logged evs s) = trace s ++ evs.
Proof. done. Qed.

Ltac run :=
  unfold bind, ret, raise, try_except, st_error, st_warning, st_success, st_stop,
    print, emit, generate_content_call, requests_post_call, genai_configure_call,
    response_text, response_has_text;
  simpl.

(** Two spellings of one state: unfold the updates and reassociate the trace. *)
Ltac same_state :=
  unfold logged, set_trace; simpl; rewrite <- ?app_assoc; simpl; reflexivity.

(** ** The two calls of main.py, case by case *)

Section MainRuns.
Variable w : World.

(** Every path through [rewrite_text_with_llm]. *)
Lemma rewrite_text_with_llm_run (text_to_rewrite : option str) (tone : str) (s : state) :
  Main.rewrite_text_with_llm w text_to_rewrite tone s =
  if truthy text_to_rewrite then
    let prompt := Main.rewrite_prompt tone text_to_rewrite in
    let call := GenerateContent gemini_model prompt None in
    match generate_content w (trace s) gemini_model prompt None with
    | LlmReturns (RespText t) => (Return (Some (strip t)), logged [call] s)
    | LlmReturns (RespBlocked e) | LlmReturns (RespNoText e) | LlmRaises e =>
        (Return None,
         logged [call; StError (lit "Error rewriting text with Gemini: " ++ exn_str e)] s)
    end
  else (Return (Some []), s).
Proof.
  unfold Main.rewrite_text_with_llm.
  destruct (truthy text_to_rewrite); simpl; [|done].
  unfold try_except, bind at 1, generate_content_call. fold gemini_model.
  destruct (generate_content w (trace s) gemini_model _ None) as [[t|e|e]|e];
    run; same_state.
Qed.

(** Every path through [convert_text_to_speech]. *)
Lemma convert_text_to_speech_run (api_key : str) (text_to_speak voice_id : option str)
    (s : state) :
  Main.convert_text_to_speech w api_key text_to_speak voice_id s =
  if truthy text_to_speak && truthy voice_id then
    let url := Main.tts_url voice_id in
    let data := Main.tts_data text_to_speak in
    let headers := Main.tts_headers api_key in
    let call := RequestsPost url data headers in
    match requests_post w (trace s) url data headers with
    | HttpReturns r =>
        if (status_code r =? 200)%Z then (Return (Some (content r)), logged [call] s)
        else (Return None,
              logged [call; StError (lit "ElevenLabs API Error: "
                                     ++ str_of_int (status_code r)
                                     ++ lit " - " ++ text r)] s)
    | HttpRaises e =>
        (Return None,
         logged [call; StError (lit "An error occurred while calling the ElevenLabs API: "
                                ++ exn_str e)] s)
    end
  else (Return None, s).
Proof.
  unfold Main.convert_text_to_speech.
  destruct (truthy text_to_speak), (truthy voice_id); simpl; try done.
  unfold try_except, bind at 1, requests_post_call.
  destruct (requests_post w (trace s) _ _ _) as [r|e]; [|run; same_state].
  destruct (status_code r =? 200)%Z; run; same_state.
Qed.

End MainRuns.

(** ** Speech synthesis *)

(** C4.  Called with an empty or absent text, or with an empty or absent
    voice identifier, [convert_text_to_speech] returns [None] and leaves the
    state as it found it: no HTTP request is issued and nothing is shown. *)
Theorem convert_text_to_speech_needs_text_and_voice
    (w : World) (api_key : str) (text_to_speak voice_id : option str) (s : state) :
  truthy text_to_speak = false ∨ truthy voice_id = false →
  Main.convert_text_to_speech w api_key text_to_speak voice_id s = (Return None, s)
  ∧ new_events s (Main.convert_text_to_speech w api_key text_to_speak voice_id s).2 = [].
Proof.
  intros H. rewrite convert_text_to_speech_run.
  assert (truthy text_to_speak && truthy voice_id = false) as ->.
  { destruct H as [-> | ->]; [done | by rewrite andb_false_r]. }
  split; [done | apply new_events_same].
Qed.

Lemma convert_text_to_speech_needs_text_and_voice_witness :
  (truthy (Some (lit "")) = false ∨ truthy (@None str) = false)
  ∧ Main.convert_text_to_speech Examples.good (lit "xi-key") (Some (lit "")) None
      Examples.ready = (Return None, Examples.ready).
Proof.
  split.
  - left. vm_compute. reflexivity.
  - apply (convert_text_to_speech_needs_text_and_voice
             Examples.good (lit "xi-key") (Some (lit "")) None Examples.ready).
    left. vm_compute. reflexivity.
Defined.

(** C7.  For a non-empty text and voice identifier the function issues one
    remote call, the POST below, and hands back the body of a 200 answer
    unchanged. *)
Theorem convert_text_to_speech_request
    (w : World) (api_key text_to_speak voice_id : str) (s : state) :
  text_to_speak ≠ [] → voice_id ≠ [] →
  let url := lit "https://api.elevenlabs.io/v1/text-to-speech/" ++ voice_id in
  let headers := [ (lit "Accept", lit "audio/mpeg");
                   (lit "Content-Type", lit "application/json");
                   (lit "xi-api-key", api_key) ] in
  let body := JObj [ (lit "text", JStr text_to_speak);
                     (lit "model_id", JStr (lit "eleven_multilingual_v2"));
                     (lit "voice_settings",
                      JObj [ (lit "stability", JNum 0.5);
                             (lit "similarity_boost", JNum 0.75) ]) ] in
  let result :=
    Main.convert_text_to_speech w api_key (Some text_to_speak) (Some voice_id) s in
  filter is_remote_call (new_events s result.2) = [RequestsPost url body headers]
  ∧ ∀ r, requests_post w (trace s) url body headers = HttpReturns r →
         status_code r = 200%Z →
         result.1 = Return (Some (content r)).
Proof.
  intros Ht Hv url headers body result. subst result.
  rewrite convert_text_to_speech_run.
  destruct text_to_speak as [|c t]; [done|]. destruct voice_id as [|d v]; [done|].
  simpl. change (Main.tts_url (Some (d :: v))) with url.
  change (Main.tts_data (Some (c :: t))) with body.
  change (Main.tts_headers api_key) with headers.
  split.
  - destruct (requests_post w (trace s) url body headers) as [r|e]; simpl.
    + destruct (status_code r =? 200)%Z; simpl; by rewrite new_events_logged.
    + by rewrite new_events_logged.
  - intros r -> Hr. simpl. by rewrite Hr.
Qed.

Lemma convert_text_to_speech_request_witness :
  lit "Once upon a time." ≠ [] ∧ lit "21m00" ≠ []
  ∧ (Main.convert_text_to_speech Examples.good (lit "xi-key")
       (Some (lit "Once upon a time.")) (Some (lit "21m00")) Examples.ready).1
    = Return (Some Examples.mp3).
Proof.
  split; [by vm_compute|]. split; [by vm_compute|].
  refine (proj2 (convert_text_to_speech_request Examples.good (lit "xi-key")
                   (lit "Once upon a time.") (lit "21m00") Examples.ready _ _)
                {| status_code := 200; content := Examples.mp3; text := [] |} _ _);
    by vm_compute.
Defined.

(** C10.  [convert_text_to_speech] always returns: an audio value only for
    a 200 answer, whose body it is, and [None] otherwise.  An exception of
    the transport ends in [None] with a diagnostic after the request. *)
Theorem convert_text_to_speech_total
    (w : World) (api_key : str) (text_to_speak voice_id : option str) (s : state) :
  ∃ (result : option bytes) (s' : state),
    Main.convert_text_to_speech w api_key text_to_speak voice_id s = (Return result, s')
    ∧ (∀ audio, result = Some audio →
         ∃ r, requests_post w (trace s) (Main.tts_url voice_id)
                (Main.tts_data text_to_speak) (Main.tts_headers api_key) = HttpReturns r
              ∧ status_code r = 200%Z ∧ content r = audio)
    ∧ (∀ e, truthy text_to_speak = true → truthy voice_id = true →
         requests_post w (trace s) (Main.tts_url voice_id)
           (Main.tts_data text_to_speak) (Main.tts_headers api_key) = HttpRaises e →
         result = None
         ∧ new_events s s' =
             [ RequestsPost (Main.tts_url voice_id) (Main.tts_data text_to_speak)
                 (Main.tts_headers api_key);
               StError (lit "An error occurred while calling the ElevenLabs API: "
                        ++ exn_str e) ]).
Proof.
  rewrite convert_text_to_speech_run.
  destruct (truthy text_to_speak && truthy voice_id) eqn:Hg; simpl.
  - destruct (requests_post w (trace s) _ _ _) as [r|e] eqn:Hp.
    + destruct (status_code r =? 200)%Z eqn:Hr.
      * eexists _, _. split; [done|]. split; [|done].
        intros audio [= <-]. exists r. split; [done|]. split; [|done].
        by apply Z.eqb_eq.
      * eexists _, _. split; [done|]. split; done.
    + eexists _, _. split; [done|]. split; [done|].
      intros e' _ _ [= <-]. split; [done|]. apply new_events_logged.
  - eexists _, _. split; [done|]. split; [done|].
    intros e Ht Hv. by rewrite Ht, Hv in Hg.
Qed.

(** ** The rewrite call *)

(** C8.  For a non-empty text and a tone of the selector, the one remote
    call of [rewrite_text_with_llm] carries the fixed template with the tone
    and the text in their places; when the model answers with a text, the
    result is that text without the whitespace at its two ends. *)
Theorem rewrite_text_with_llm_prompt
    (w : World) (text_to_rewrite : str) (t : Main.Tone) (s : state) :
  text_to_rewrite ≠ [] →
  let tone := Main.tone_label t in
  let prompt :=
    lit "You are a master storyteller. Rewrite the following text in a '" ++ tone
    ++ lit "' tone, preserving the original meaning but enhancing the style. Return only the rewritten text."
    ++ [10]
    ++ lit "    ORIGINAL TEXT: " ++ [34] ++ text_to_rewrite ++ [34] ++ [10]
    ++ lit "    REWRITTEN TEXT:" in
  let result := Main.rewrite_text_with_llm w (Some text_to_rewrite) tone s in
  filter is_remote_call (new_events s result.2)
    = [GenerateContent (lit "gemini-1.5-flash-latest") prompt None]
  ∧ ∀ reply,
      generate_content w (trace s) (lit "gemini-1.5-flash-latest") prompt None
        = LlmReturns (RespText reply) →
      result.1 = Return (Some (strip reply))
      ∧ (∃ l r, reply = l ++ strip reply ++ r
                ∧ forallb isspace l = true ∧ forallb isspace r = true)
      ∧ (∀ c u, strip reply = c :: u → isspace c = false)
      ∧ (∀ u c, strip reply = u ++ [c] → isspace c = false).
Proof.
  intros Ht tone prompt result. subst result.
  rewrite rewrite_text_with_llm_run.
  destruct text_to_rewrite as [|c u]; [done|]. simpl.
  change (Main.rewrite_prompt tone (Some (c :: u))) with prompt.
  change gemini_model with (lit "gemini-1.5-flash-latest").
  split.
  - destruct (generate_content w (trace s) _ prompt None) as [[reply|e|e]|e];
      simpl; by rewrite new_events_logged.
  - intros reply ->. simpl. split; [done|]. apply strip_spec.
Qed.

Lemma rewrite_text_with_llm_prompt_witness :
  lit "Hi" ≠ []
  ∧ (Main.rewrite_text_with_llm Examples.good (Some (lit "Hi"))
       (Main.tone_label Main.Poetic) Examples.ready).1
    = Return (Some (lit "Once upon a time.")).
Proof.
  split; [by vm_compute|].
  refine (proj1 (proj2 (rewrite_text_with_llm_prompt Examples.good (lit "Hi")
                          Main.Poetic Examples.ready _)
                       (lit "  Once upon a time. " ++ newline) _));
    by vm_compute.
Defined.

(** C9.  With an empty text the button handler shows the warning and does
    nothing else, and [rewrite_text_with_llm] itself answers an empty (or
    absent) text with the empty string without touching the state. *)
Theorem empty_text_makes_no_call
    (w : World) (api_key tone voice_name : str) (voice_id : option str) (s : state) :
  Main.generate_audiobook w api_key [] tone voice_name voice_id s
    = (Return (), logged [StWarning (lit "Please provide text to continue.")] s)
  ∧ filter is_remote_call
      (new_events s (Main.generate_audiobook w api_key [] tone voice_name voice_id s).2) = []
  ∧ Main.rewrite_text_with_llm w (Some []) tone s = (Return (Some []), s)
  ∧ Main.rewrite_text_with_llm w None tone s = (Return (Some []), s).
Proof.
  split; [done|]. split; [|done].
  change (Main.generate_audiobook w api_key [] tone voice_name voice_id s)
    with (Return (), logged [StWarning (lit "Please provide text to continue.")] s).
  simpl. by rewrite new_events_logged.
Qed.

(** ** The button handler *)

Section Handler.
Variable w : World.
Variables (api_key text_in tone_in voice_in : str) (voice_id : option str).

(** The handler only ever appends to the trace. *)
Lemma rewrite_text_with_llm_extends (text : option str) (s : state) :
  ∃ evs, (Main.rewrite_text_with_llm w text tone_in s).2 = logged evs s
         ∧ filter is_post evs = [] ∧ filter is_success evs = [].
Proof.
  rewrite rewrite_text_with_llm_run. destruct (truthy text); simpl.
  - destruct (generate_content w (trace s) _ _ None) as [[reply|e|e]|e];
      simpl; eexists; (split; [reflexivity | by split]).
  - exists []. by rewrite logged_nil.
Qed.

Lemma convert_text_to_speech_extends (text : option str) (s : state) :
  ∃ evs, (Main.convert_text_to_speech w api_key text voice_id s).2 = logged evs s
         ∧ filter is_success evs = [].
Proof.
  rewrite convert_text_to_speech_run. destruct (truthy text && truthy voice_id); simpl.
  - destruct (requests_post w (trace s) _ _ _) as [r|e]; simpl.
    + destruct (status_code r =? 200)%Z; simpl; eexists; (split; [reflexivity | done]).
    + eexists; (split; [reflexivity | done]).
  - exists []. by rewrite logged_nil.
Qed.

(** The handler with its sequencing spelled out. *)
Lemma generate_audiobook_run (s : state) :
  Main.generate_audiobook w api_key text_in tone_in voice_in voice_id s =
  if truthy text_in && truthy voice_id then
    match Main.rewrite_text_with_llm w (Some text_in) tone_in s with
    | (Return rewritten, s1) =>
        if truthy rewritten then
          match Main.convert_text_to_speech w api_key rewritten voice_id s1 with
          | (Return audio, s2) =>
              if truthy audio then
                let e := {| original_text := text_in; rewritten_text := rewritten;
                            tone := tone_in; voice_name := voice_in; audio_data := audio |} in
                match history s2 with
                | Some h => (Return (), set_history (Some (e :: h)) (logged success_message s2))
                | None => (Raise Main.no_history_attribute, logged success_message s2)
                end
              else (Return (), s2)
          | (Raise e, s2) => (Raise e, s2)
          | (Stop, s2) => (Stop, s2)
          end
        else (Return (), s1)
    | (Raise e, s1) => (Raise e, s1)
    | (Stop, s1) => (Stop, s1)
    end
  else (Return (), logged [StWarning (lit "Please provide text to continue.")] s).
Proof.
  unfold Main.generate_audiobook.
  destruct (truthy text_in && truthy voice_id); [|done].
  unfold bind at 1.
  destruct (Main.rewrite_text_with_llm w (Some text_in) tone_in s)
    as [[rewritten|e|] s1]; [|done|done].
  destruct (truthy rewritten); [|done].
  unfold bind at 1.
  destruct (Main.convert_text_to_speech w api_key rewritten voice_id s1)
    as [[audio|e|] s2]; [|done|done].
  destruct (truthy audio); [|done].
  unfold bind, st_success, emit, Main.history_insert. simpl.
  destruct (history s2); reflexivity.
Qed.

End Handler.

(** C1.  When [rewrite_text_with_llm] hands no text to the handler, the
    handler issues no synthesis request, shows no success message and leaves
    the history as it was. *)
Theorem failed_rewrite_stops_the_generation
    (w : World) (api_key original_text tone voice_name : str)
    (voice_id : option str) (s : state) :
  produces_no_text (Main.rewrite_text_with_llm w (Some original_text) tone s).1 →
  let s' := (Main.generate_audiobook w api_key original_text tone voice_name voice_id s).2 in
  filter is_post (new_events s s') = []
  ∧ filter is_success (new_events s s') = []
  ∧ history s' = history s.
Proof.
  intros Hno s'. subst s'. rewrite generate_audiobook_run.
  destruct (truthy original_text && truthy voice_id).
  - destruct (rewrite_text_with_llm_extends w tone (Some original_text) s)
      as (evs & Hs & Hpost & Hok).
    destruct (Main.rewrite_text_with_llm w (Some original_text) tone s)
      as [[rewritten|e|] s1]; simpl in *; subst s1.
    + rewrite Hno. simpl. by rewrite new_events_logged.
    + by rewrite new_events_logged.
    + by rewrite new_events_logged.
  - simpl. by rewrite new_events_logged.
Qed.

Lemma failed_rewrite_stops_the_generation_witness :
  produces_no_text
    (Main.rewrite_text_with_llm Examples.llm_down (Some (lit "Hi")) (lit "Poetic")
       Examples.ready).1
  ∧ history (Main.generate_audiobook Examples.llm_down (lit "xi-key") (lit "Hi")
               (lit "Poetic") (lit "Rachel") (Some (lit "21m00")) Examples.ready).2
    = Some [].
Proof.
  split; [by vm_compute|].
  apply (failed_rewrite_stops_the_generation Examples.llm_down (lit "xi-key") (lit "Hi")
           (lit "Poetic") (lit "Rachel") (Some (lit "21m00")) Examples.ready).
  by vm_compute.
Defined.

(** C5.  A synthesis answer with a status other than 200: the function
    shows the status code and the body text and returns [None]; the handler
    that made the call shows no success message and leaves the history as
    it was. *)
Theorem non_200_answer_creates_no_record
    (w : World) (api_key original_text tone voice_name : str)
    (voice_id : option str) (r : http_response) (s : state) :
  status_code r ≠ 200%Z →
  let diagnostic :=
    StError (lit "ElevenLabs API Error: " ++ str_of_int (status_code r)
             ++ lit " - " ++ text r) in
  let rewrite := Main.rewrite_text_with_llm w (Some original_text) tone s in
  (∀ rewritten, rewrite.1 = Return rewritten →
     requests_post w (trace rewrite.2) (Main.tts_url voice_id) (Main.tts_data rewritten)
       (Main.tts_headers api_key) = HttpReturns r) →
  let s' := (Main.generate_audiobook w api_key original_text tone voice_name voice_id s).2 in
  (∀ rewritten, rewrite.1 = Return rewritten →
     truthy rewritten && truthy voice_id = true →
     Main.convert_text_to_speech w api_key rewritten voice_id rewrite.2
       = (Return None,
          logged [ RequestsPost (Main.tts_url voice_id) (Main.tts_data rewritten)
                     (Main.tts_headers api_key);
                   diagnostic ] rewrite.2)
     ∧ (truthy original_text = true → last (new_events s s') = Some diagnostic))
  ∧ filter is_success (new_events s s') = []
  ∧ history s' = history s.
Proof.
  intros Hr diagnostic rewrite Hpost s'. subst s' rewrite.
  rewrite generate_audiobook_run.
  destruct (rewrite_text_with_llm_extends w tone (Some original_text) s)
    as (evs & Hs & _ & Hok).
  destruct (Main.rewrite_text_with_llm w (Some original_text) tone s)
    as [[rewritten|e|] s1] eqn:Hrw; simpl in *; subst s1.
  - specialize (Hpost rewritten eq_refl).
    assert (Main.convert_text_to_speech w api_key rewritten voice_id (logged evs s)
            = if truthy rewritten && truthy voice_id
              then (Return None,
                    logged [ RequestsPost (Main.tts_url voice_id) (Main.tts_data rewritten)
                               (Main.tts_headers api_key); diagnostic ] (logged evs s))
              else (Return None, logged evs s)) as Hcall.
    { rewrite convert_text_to_speech_run.
      destruct (truthy rewritten && truthy voice_id); [|done].
      simpl. rewrite trace_logged in Hpost. rewrite Hpost.
      by destruct (Z.eqb_spec (status_code r) 200). }
    split.
    + intros ? [= <-] Hg. rewrite Hcall, Hg. split; [done|].
      intros Ht. rewrite Ht. simpl.
      apply andb_prop in Hg as [Hg1 Hg2]. rewrite Hg1, Hg2. simpl.
      rewrite logged_logged, new_events_logged. by rewrite last_app.
    + destruct (truthy original_text && truthy voice_id); simpl.
      * destruct (truthy rewritten) eqn:Hg1; simpl.
        -- rewrite Hcall. destruct (truthy voice_id); simpl.
           ++ rewrite logged_logged, new_events_logged, filter_app, Hok. done.
           ++ rewrite new_events_logged. done.
        -- by rewrite new_events_logged.
      * by rewrite new_events_logged.
  - split; [done|]. destruct (truthy original_text && truthy voice_id); simpl;
      by rewrite new_events_logged.
  - split; [done|]. destruct (truthy original_text && truthy voice_id); simpl;
      by rewrite new_events_logged.
Qed.

Lemma non_200_answer_creates_no_record_witness :
  (401 ≠ 200)%Z
  ∧ history (Main.generate_audiobook Examples.tts_401 (lit "xi-key") (lit "Hi")
               (lit "Poetic") (lit "Rachel") (Some (lit "21m00")) Examples.ready).2
    = Some [].
Proof.
  split; [done|].
  refine (proj2 (proj2 (non_200_answer_creates_no_record Examples.tts_401 (lit "xi-key")
            (lit "Hi") (lit "Poetic") (lit "Rachel") (Some (lit "21m00"))
            {| status_code := 401; content := []; text := lit "unauthorized" |}
            Examples.ready _ _))); [done | by intros].
Defined.

(** ** Startup of main.py *)

Section Startup.
Variable w : World.

(** The environment [configure_apis] reads, once the .env file is loaded. *)
Lemma startup_run (s : state) :
  Main.startup w s =
  match resource_cache s with
  | Some v => (Return v, s)
  | None =>
      let env := environ s ∪ dotenv w in
      let s0 := set_environ env s in
      match env !! lit "GOOGLE_API_KEY" with
      | None | Some [] =>
          (Stop, logged [StError (lit "Google AI API Key is missing. Please check your .env file.")] s0)
      | Some (c :: k) =>
          match env !! lit "ELEVENLABS_API_KEY" with
          | None | Some [] =>
              (Stop, logged [StError (lit "ElevenLabs API Key is missing. Please check your .env file.")] s0)
          | Some (d :: x) =>
              match genai_configure w (trace s) (c :: k) with
              | None =>
                  (Return (d :: x),
                   set_resource_cache (Some (d :: x)) (logged [GenaiConfigure (c :: k)] s0))
              | Some e =>
                  (Stop,
                   logged [ GenaiConfigure (c :: k);
                            StError (lit "Failed to configure Google Gemini API: " ++ exn_str e) ]
                     s0)
              end
          end
      end
  end.
Proof.
  unfold Main.startup, Main.cache_resource, try_except at 1.
  destruct (resource_cache s) eqn:Hc; [done|].
  unfold Main.configure_apis, Main.load_dotenv, Main.os_getenv, bind at 1 2 3. simpl.
  destruct ((environ s ∪ dotenv w) !! lit "GOOGLE_API_KEY") as [[|c k]|]; [done| |done].
  destruct ((environ s ∪ dotenv w) !! lit "ELEVENLABS_API_KEY") as [[|d x]|]; [done| |done].
  run. destruct (genai_configure w (trace s) (c :: k)); simpl; f_equal; same_state.
Qed.

End Startup.

(** ** One run of the script *)

Lemma quiet_refl (s : state) : quiet s s.
Proof. exists []. by rewrite app_nil_r. Qed.

Lemma quiet_logged (evs : list event) (s : state) :
  filter is_success evs = [] → quiet s (logged evs s).
Proof. intros H. by exists evs. Qed.

Section Script.
Variable w : World.

Lemma startup_quiet (s : state) : quiet s (Main.startup w s).2.
Proof.
  rewrite startup_run. destruct (resource_cache s); [apply quiet_refl|]. simpl.
  destruct (_ !! lit "GOOGLE_API_KEY") as [[|c k]|];
    try (eexists; split; [reflexivity | done]).
  destruct (_ !! lit "ELEVENLABS_API_KEY") as [[|d x]|];
    try (eexists; split; [reflexivity | done]).
  destruct (genai_configure w (trace s) (c :: k));
    eexists; (split; [reflexivity | done]).
Qed.

Lemma init_history_run (s : state) :
  ∃ s', Main.init_history s = (Return (), s')
        ∧ trace s' = trace s ∧ history s' = Some (records s).
Proof.
  unfold Main.init_history, records. destruct s as [t e c [h|]]; simpl; eauto.
Qed.

Lemma input_layer_run (p : Main.page) (s : state) :
  ∃ s', Main.input_layer (Main.input_method p) s = (Return (page_text p), s')
        ∧ quiet s s'.
Proof.
  unfold Main.input_layer, page_text.
  destruct (Main.input_method p) as [v| |[e|t]]; run.
  - eexists. split; [done | apply quiet_refl].
  - eexists. split; [done | apply quiet_refl].
  - eexists. split; [reflexivity | by apply (quiet_logged [_])].
  - eexists. split; [done | apply quiet_refl].
Qed.

Lemma voice_layer_run (api_key : str) (v : exn + (str * option str)) (s : state) :
  ∃ s', quiet s s'
        ∧ Main.voice_layer api_key v s
          = (match v with inl _ => Stop | inr choice => Return choice end, s').
Proof.
  unfold Main.voice_layer. destruct v as [e|choice]; run.
  - eexists. split; [|reflexivity].
    eexists. split; [simpl; by rewrite <- app_assoc | done].
  - eexists. split; [|reflexivity]. by apply (quiet_logged [_]).
Qed.

(** The handler on an initialised history: nothing happens to the history,
    or one record of this run's inputs is put in front of it. *)
Lemma generate_audiobook_step
    (api_key text_in tone_in voice_in : str) (voice_id : option str)
    (h : list entry) (s : state) :
  history s = Some h →
  let s' := (Main.generate_audiobook w api_key text_in tone_in voice_in voice_id s).2 in
  ∃ evs, trace s' = trace s ++ evs
    ∧ ((filter is_success evs = [] ∧ history s' = Some h)
       ∨ (∃ rewritten audio,
            filter is_success evs = success_message
            ∧ history s' = Some ({| original_text := text_in; rewritten_text := rewritten;
                                    tone := tone_in; voice_name := voice_in;
                                    audio_data := audio |} :: h)
            ∧ truthy rewritten = true ∧ truthy audio = true)).
Proof.
  intros Hh s'. subst s'. rewrite generate_audiobook_run.
  destruct (truthy text_in && truthy voice_id);
    [|eexists; split; [reflexivity | left; by split]].
  destruct (rewrite_text_with_llm_extends w tone_in (Some text_in) s)
    as (e1 & Hs1 & _ & Hok1).
  destruct (Main.rewrite_text_with_llm w (Some text_in) tone_in s)
    as [[rewritten|e|] s1]; simpl in Hs1; subst s1;
    try (exists e1; split; [done | left; by split]).
  destruct (truthy rewritten) eqn:Hrw;
    [|exists e1; split; [done | left; by split]].
  destruct (convert_text_to_speech_extends w api_key voice_id rewritten (logged e1 s))
    as (e2 & Hs2 & Hok2).
  destruct (Main.convert_text_to_speech w api_key rewritten voice_id (logged e1 s))
    as [[audio|e|] s2]; simpl in Hs2; subst s2; rewrite logged_logged;
    try (exists (e1 ++ e2); split; [done | left; split; [by rewrite filter_app, Hok1, Hok2 | done]]).
  destruct (truthy audio) eqn:Hau;
    [|exists (e1 ++ e2); split; [done | left; split; [by rewrite filter_app, Hok1, Hok2 | done]]].
  simpl. rewrite Hh. exists ((e1 ++ e2) ++ success_message). split.
  - simpl. by rewrite <- !app_assoc.
  - right. exists rewritten, audio. rewrite !filter_app, Hok1, Hok2. done.
Qed.

(** One run of the whole script. *)
Lemma script_step (p : Main.page) (s : state) :
  let s' := (Main.script w p s).2 in
  ∃ evs, trace s' = trace s ++ evs
    ∧ ((filter is_success evs = [] ∧ records s' = records s
        ∧ (is_Some (history s) → is_Some (history s')))
       ∨ (∃ e voice_id,
            filter is_success evs = success_message
            ∧ history s' = Some (e :: records s)
            ∧ original_text e = page_text p
            ∧ tone e = Main.tone_label (Main.tone_choice p)
            ∧ Main.voice_choice p = inr (voice_name e, voice_id)
            ∧ truthy (rewritten_text e) = true ∧ truthy (audio_data e) = true
            ∧ Main.button p = true)).
Proof.
  intros s'.
  assert (∃ o, Main.script w p s = (o, s')) as [o Hrun]
    by (eexists; apply surjective_pairing).
  clearbody s'. unfold Main.script in Hrun. unfold bind at 1 in Hrun.
  pose proof (startup_quiet s) as Q1.
  destruct (Main.startup w s) as [[key|e|] s1]; simpl in Q1;
    try (injection Hrun as <- <-; destruct Q1 as (evs & T & S & H); exists evs;
         split; [done | left; unfold records; by rewrite H]).
  unfold bind at 1 in Hrun.
  destruct (init_history_run s1) as (s2 & Hi & T2 & H2). rewrite Hi in Hrun.
  unfold bind at 1 in Hrun.
  destruct (input_layer_run p s2) as (s3 & Hin & Q3). rewrite Hin in Hrun.
  destruct (voice_layer_run key (Main.voice_choice p) s3) as (s4 & Q4 & Hv).
  unfold bind at 1 in Hrun. rewrite Hv in Hrun.
  assert (∃ evs, trace s4 = trace s ++ evs ∧ filter is_success evs = []
                 ∧ history s4 = Some (records s)) as (e0 & T0 & S0 & H0).
  { destruct Q1 as (a & Ta & Sa & Ha), Q3 as (b & Tb & Sb & Hb), Q4 as (c & Tc & Sc & Hc).
    exists (a ++ b ++ c). rewrite Tc, Tb, T2, Ta, !filter_app, Sa, Sb, Sc, Hc, Hb, H2.
    rewrite <- !app_assoc. unfold records. by rewrite Ha. }
  destruct (Main.voice_choice p) as [e|[name id]] eqn:Hvc.
  { injection Hrun as <- <-. exists e0.
    split; [done | left; unfold records at 1; by rewrite H0]. }
  destruct (Main.button p) eqn:Hb.
  - destruct (generate_audiobook_step key (page_text p)
                (Main.tone_label (Main.tone_choice p)) name id (records s) s4 H0)
      as (e1 & T1 & Hcase).
    destruct (Main.generate_audiobook w key (page_text p) _ name id s4) as [o' s5].
    injection Hrun as <- <-. simpl in T1, Hcase.
    destruct Hcase as [[S1 H1] | (rw & audio & S1 & H1 & Hrw & Hau)].
    + exists (e0 ++ e1). rewrite T1, T0, app_assoc, filter_app, S0, S1.
      split; [done | left; unfold records at 1; by rewrite H1].
    + exists (e0 ++ e1). rewrite T1, T0, app_assoc, filter_app, S0, S1.
      split; [done | right]. eexists _, id. rewrite H1. by repeat split.
  - injection Hrun as <- <-. exists e0.
    split; [done | left; unfold records at 1; by rewrite H0].
Qed.

End Script.

(** ** The history over a session *)

Lemma existsb_filter {A} (f : A → bool) (l : list A) :
  existsb f l = match filter f l with [] => false | _ :: _ => true end.
Proof.
  induction l as [|x l IH]; [done|]. simpl.
  destruct (f x) eqn:Hx; simpl.
  - rewrite filter_cons_True by by rewrite Hx. done.
  - rewrite filter_cons_False by (rewrite Hx; auto). apply IH.
Qed.

Lemma new_events_extends (s s' : state) (evs : list event) :
  trace s' = trace s ++ evs → new_events s s' = evs.
Proof. intros H. unfold new_events. rewrite H. apply drop_app_length. Qed.

(** What one run does to the history, told through what the page shows. *)
Lemma script_generated (w : World) (p : Main.page) (s : state) :
  let s' := (Main.script w p s).2 in
  (successes (new_events s s') = 0%nat ∧ generated s s' = None
   ∧ records s' = records s ∧ (is_Some (history s) → is_Some (history s')))
  ∨ (∃ e voice_id,
       successes (new_events s s') = 1%nat ∧ generated s s' = Some e
       ∧ history s' = Some (list_insert_at 0 e (records s))
       ∧ original_text e = page_text p
       ∧ tone e = Main.tone_label (Main.tone_choice p)
       ∧ Main.voice_choice p = inr (voice_name e, voice_id)
       ∧ Main.button p = true).
Proof.
  intros s'. destruct (script_step w p s) as (evs & T & Hcase). fold s' in T, Hcase.
  unfold generated, successes. rewrite existsb_filter, (new_events_extends _ _ _ T).
  destruct Hcase as [(S & R & H) | (e & vid & S & H & Ho & Ht & Hv & _ & _ & Hb)].
  - left. by rewrite S.
  - right. exists e, vid. rewrite S. unfold Main.latest. rewrite H. done.
Qed.

Lemma session_extends (w : World) (ps : list Main.page) (s : state) :
  ∃ evs, trace (Main.session w ps s) = trace s ++ evs.
Proof.
  revert s. induction ps as [|p ps IH]; intros s; simpl.
  - exists []. by rewrite app_nil_r.
  - destruct (script_step w p s) as (e1 & T1 & _).
    destruct (IH (Main.script w p s).2) as (e2 & T2).
    exists (e1 ++ e2). by rewrite T2, T1, app_assoc.
Qed.

Lemma session_history (w : World) (ps : list Main.page) (s : state) :
  let s' := Main.session w ps s in
  let created := generations w ps s in
  records s' = rev created ++ records s
  ∧ length created = successes (new_events s s')
  ∧ (is_Some (history s) ∨ created ≠ [] → is_Some (history s')).
Proof.
  revert s. induction ps as [|p ps IH]; intros s; simpl.
  - rewrite new_events_same. split; [done|]. split; [done|]. by intros [?|?].
  - set (s1 := (Main.script w p s).2).
    destruct (IH s1) as (R & L & S).
    destruct (script_step w p s) as (e1 & T1 & _). fold s1 in T1.
    destruct (session_extends w ps s1) as (e2 & T2).
    assert (new_events s (Main.session w ps s1) = e1 ++ e2) as ->.
    { apply new_events_extends. by rewrite T2, T1, app_assoc. }
    rewrite (new_events_extends _ _ _ T2) in L.
    assert (successes (e1 ++ e2) = (successes e1 + successes e2)%nat) as ->.
    { unfold successes. by rewrite filter_app, length_app. }
    rewrite length_app, L.
    destruct (script_generated w p s) as [(N & G & R1 & H1) | (e & vid & N & G & H1 & _)];
      fold s1 in N, G, H1; rewrite (new_events_extends _ _ _ T1) in N;
      rewrite N, G; simpl.
    + fold s1 in R1. rewrite R, R1. split; [done|]. split; [done|].
      intros [?|?]; apply S; [left; by apply H1 | by right].
    + assert (records s1 = e :: records s) as R1
        by (unfold records at 1; by rewrite H1).
      rewrite R, R1, <- app_assoc. split; [done|]. split; [done|].
      intros _. apply S. left. by rewrite H1.
Qed.

(** C6.  Over any session the history is the list of the records created,
    newest first, in front of what was there before: each generation that
    announced its success put exactly one record, the one of its own text,
    tone and voice, at position 0, and no run changed or dropped a record.
    [generations] lists the created records oldest first, so record 0 is the
    one of the last successful generation. *)
Theorem history_is_most_recent_first (w : World) (ps : list Main.page) (s : state) :
  let s' := Main.session w ps s in
  let created := generations w ps s in
  records s' = rev created ++ records s
  ∧ length created = successes (new_events s s')
  ∧ (∀ e, last created = Some e → Main.latest s' = Some e)
  ∧ (∀ p s0,
       let s1 := (Main.script w p s0).2 in
       (successes (new_events s0 s1) = 0%nat ∧ generated s0 s1 = None
        ∧ records s1 = records s0)
       ∨ (∃ e voice_id,
            successes (new_events s0 s1) = 1%nat ∧ generated s0 s1 = Some e
            ∧ records s1 = e :: records s0
            ∧ original_text e = page_text p
            ∧ tone e = Main.tone_label (Main.tone_choice p)
            ∧ Main.voice_choice p = inr (voice_name e, voice_id)
            ∧ Main.button p = true)).
Proof.
  intros s' created. destruct (session_history w ps s) as (R & L & S).
  fold s' created in R, L, S. split; [done|]. split; [done|]. split.
  - intros e He.
    assert (created ≠ []) as Hne by (intros E; by rewrite E in He).
    destruct (S (or_intror Hne)) as [h Hh].
    unfold records in R at 1. rewrite Hh in R. simpl in R.
    unfold Main.latest. rewrite Hh. simpl. rewrite R.
    destruct created as [|x c _] using rev_ind; [done|].
    rewrite last_snoc in He. injection He as ->.
    by rewrite rev_app_distr.
  - intros p s0 s1.
    destruct (script_generated w p s0) as [(N & G & R1 & _) | (e & vid & N & G & H1 & F)].
    + left. done.
    + right. exists e, vid. fold s1 in H1. unfold records at 1. rewrite H1. done.
Qed.

(** Two generations in one session: the second record is in front. *)
Example two_generations :
  records (Main.session Examples.good
             [Examples.press (lit "first"); Examples.press (lit "second")]
             Examples.fresh)
  = [ {| original_text := lit "second"; rewritten_text := Some (lit "Once upon a time.");
         tone := lit "Suspenseful"; voice_name := lit "Rachel";
         audio_data := Some Examples.mp3 |};
      {| original_text := lit "first"; rewritten_text := Some (lit "Once upon a time.");
         tone := lit "Suspenseful"; voice_name := lit "Rachel";
         audio_data := Some Examples.mp3 |} ].
Proof. by vm_compute. Qed.

(** A run in which the transport to the synthesis service fails: the
    diagnostic is the last thing shown and the history stays empty. *)
Example transport_failure :
  let r := Main.script Examples.tts_down (Examples.press (lit "Hi")) Examples.ready in
  r.1 = Return ()
  ∧ last (trace r.2)
    = Some (StError (lit "An error occurred while calling the ElevenLabs API: 503 service unavailable"))
  ∧ history r.2 = Some [].
Proof. by vm_compute. Qed.

(** ** Missing credentials *)

(** C3, as stated, fails on title.py: with its key absent (as shipped) the
    story generator does not halt.  It configures the client, serves the
    interface without any diagnostic, and answers each request with the
    missing-key text. *)
Lemma story_generator_starts_without_key :
  truthy Title.shipped_GOOGLE_API_KEY = false
  ∧ Title.startup Examples.good Title.shipped_GOOGLE_API_KEY Examples.fresh
    = (Return (), logged [GenaiConfigure []; AppLaunch] Examples.fresh)
  ∧ ¬ halts_with_diagnostic
        (Title.startup Examples.good Title.shipped_GOOGLE_API_KEY Examples.fresh)
        Examples.fresh
  ∧ Title.generate_fictional_story Examples.good Title.shipped_GOOGLE_API_KEY
      (lit "a dragon") (logged [GenaiConfigure []; AppLaunch] Examples.fresh)
    = (Return Title.missing_key_message,
       logged [GenaiConfigure []; AppLaunch] Examples.fresh).
Proof.
  split; [by vm_compute|]. split; [by vm_compute|]. split; [|by vm_compute].
  intros [H _]. vm_compute in H. discriminate H.
Qed.

(** C3, amended.  In main.py a first run that finds either key absent or
    empty ends in [st.stop()] right after the matching error message: no
    remote call is made and the rest of the script, the button handler
    included, does not run.  In title.py the program starts whatever its
    key is, and with an absent key every request is answered with the
    missing-key text, without a call to the model. *)
Theorem missing_credential_at_startup (w : World) (s : state) :
  resource_cache s = None →
  let env := environ s ∪ dotenv w in
  truthy (env !! lit "GOOGLE_API_KEY") = false
  ∨ truthy (env !! lit "ELEVENLABS_API_KEY") = false →
  let message :=
    if truthy (env !! lit "GOOGLE_API_KEY")
    then lit "ElevenLabs API Key is missing. Please check your .env file."
    else lit "Google AI API Key is missing. Please check your .env file." in
  (halts_with_diagnostic (Main.startup w s) s
   ∧ new_events s (Main.startup w s).2 = [StError message]
   ∧ ∀ p, Main.script w p s = (Stop, (Main.startup w s).2))
  ∧ (∀ key s0,
       (∃ s1, Title.startup w key s0 = (Return (), s1)
              ∧ last (new_events s0 s1) = Some AppLaunch)
       ∧ (truthy key = false →
          ∀ prompt_text s1,
            Title.generate_fictional_story w key prompt_text s1
              = (Return Title.missing_key_message, s1))).
Proof.
  intros Hc env Hmiss message. split.
  - assert (Main.startup w s = (Stop, logged [StError message] (set_environ env s))) as Hs.
    { rewrite startup_run, Hc. fold env. subst message. simpl.
      destruct (env !! lit "GOOGLE_API_KEY") as [[|c k]|]; simpl in *; try done.
      destruct (env !! lit "ELEVENLABS_API_KEY") as [[|d x]|]; simpl in *; try done.
      by destruct Hmiss. }
    split; [|split].
    + split; [by rewrite Hs|]. exists message. rewrite Hs. simpl.
      unfold new_events. simpl. rewrite drop_app_length. apply list_elem_of_here.
    + rewrite Hs. unfold new_events. simpl. by rewrite drop_app_length.
    + intros p. unfold Main.script, bind at 1. by rewrite Hs.
  - intros key s0. split.
    + unfold Title.startup, Title.configure. run.
      destruct (genai_configure w (trace s0) key); simpl; eexists; (split; [reflexivity|]);
        unfold new_events; simpl.
      * rewrite <- !app_assoc, drop_app_length. done.
      * rewrite <- !app_assoc, drop_app_length. done.
    + intros Hk prompt_text s1. unfold Title.generate_fictional_story. by rewrite Hk.
Qed.

Lemma missing_credential_at_startup_witness :
  resource_cache Examples.fresh = None
  ∧ truthy ((environ Examples.fresh ∪ dotenv Examples.no_keys) !! lit "GOOGLE_API_KEY") = false
  ∧ Main.script Examples.no_keys (Examples.press (lit "Hi")) Examples.fresh
    = (Stop, (Main.startup Examples.no_keys Examples.fresh).2).
Proof.
  split; [done|]. split; [by vm_compute|].
  refine (proj2 (proj2 (proj1 (missing_credential_at_startup Examples.no_keys
                                 Examples.fresh _ _))) _);
    [done | left; by vm_compute].
Defined.

(** ** Failures of the model call *)

(** C2, as stated, fails on title.py: when the model call raises,
    [generate_fictional_story] returns the failure message as its text. *)
Lemma story_generator_returns_failure_as_text :
  failure (generate_content Examples.llm_down (trace Examples.fresh) gemini_model
             (Title.story_prompt (lit "a dragon")) (Some Title.story_config))
    = Some Examples.boom
  ∧ Title.generate_fictional_story Examples.llm_down (lit "g-key") (lit "a dragon")
      Examples.fresh
    = (Return (lit "An unexpected error occurred with the Google AI API: 503 service unavailable"),
       logged [GenerateContent gemini_model (Title.story_prompt (lit "a dragon"))
                 (Some Title.story_config)] Examples.fresh)
  ∧ ¬ produces_no_text
        (Title.generate_fictional_story Examples.llm_down (lit "g-key") (lit "a dragon")
           Examples.fresh).1.
Proof.
  split; [by vm_compute|]. split; [by vm_compute|].
  intros H. vm_compute in H. discriminate H.
Qed.

(** C2, amended.  When the model call raises or its answer has no readable
    text, [rewrite_text_with_llm] of main.py makes no second call, shows the
    error and returns [None]; [generate_fictional_story] of title.py makes
    no second call either and returns the failure message as its text. *)
Theorem model_failure_is_reported (w : World) (s : state) (e : exn) :
  (∀ text_to_rewrite tone,
     truthy text_to_rewrite = true →
     failure (generate_content w (trace s) gemini_model
                (Main.rewrite_prompt tone text_to_rewrite) None) = Some e →
     Main.rewrite_text_with_llm w text_to_rewrite tone s
       = (Return None,
          logged [ GenerateContent gemini_model
                     (Main.rewrite_prompt tone text_to_rewrite) None;
                   StError (lit "Error rewriting text with Gemini: " ++ exn_str e) ] s))
  ∧ (∀ key prompt_text,
       truthy key = true →
       let answer := generate_content w (trace s) gemini_model
                       (Title.story_prompt prompt_text) (Some Title.story_config) in
       failure answer = Some e →
       Title.generate_fictional_story w key prompt_text s
         = (Return match answer with
                   | LlmReturns (RespNoText _) => Title.invalid_story_message
                   | _ => lit "An unexpected error occurred with the Google AI API: "
                          ++ exn_str e
                   end,
            logged [ GenerateContent gemini_model (Title.story_prompt prompt_text)
                       (Some Title.story_config) ] s)).
Proof.
  split.
  - intros text_to_rewrite tone Ht Hf. rewrite rewrite_text_with_llm_run, Ht. simpl.
    destruct (generate_content w (trace s) gemini_model _ None) as [[t|e'|e']|e'];
      simpl in Hf; try done; by injection Hf as ->.
  - intros key prompt_text Hk answer Hf. unfold Title.generate_fictional_story.
    rewrite Hk. simpl. unfold try_except, bind at 1, generate_content_call.
    fold gemini_model. fold answer.
    destruct answer as [[t|e'|e']|e']; simpl in Hf; try done;
      injection Hf as ->; run; done.
Qed.

Lemma model_failure_is_reported_witness :
  Main.rewrite_text_with_llm Examples.llm_down (Some (lit "Hi")) (lit "Poetic") Examples.ready
  = (Return None,
     logged [ GenerateContent gemini_model (Main.rewrite_prompt (lit "Poetic") (Some (lit "Hi")))
                None;
              StError (lit "Error rewriting text with Gemini: 503 service unavailable") ]
       Examples.ready).
Proof.
  refine (proj1 (model_failure_is_reported Examples.llm_down Examples.ready Examples.boom)
            (Some (lit "Hi")) (lit "Poetic") _ _); by vm_compute.
Defined.

(** * Further properties of main.py *)

(** ** The button handler, path by path *)

Section HandlerPaths.
Variable w : World.
Variables (api_key text_in tone_in voice_in : str) (voice_id : option str).

(** The model call and the synthesis request of one generation. *)
Let call : event :=
  GenerateContent gemini_model (Main.rewrite_prompt tone_in (Some text_in)) None.
Let post (rewritten : str) : event :=
  RequestsPost (Main.tts_url voice_id) (Main.tts_data (Some rewritten))
    (Main.tts_headers api_key).

(** Every path through the handler, with what each leaves on the trace. *)
Lemma generate_audiobook_paths (s : state) :
  Main.generate_audiobook w api_key text_in tone_in voice_in voice_id s =
  if truthy text_in && truthy voice_id then
    match generate_content w (trace s) gemini_model
            (Main.rewrite_prompt tone_in (Some text_in)) None with
    | LlmReturns (RespText reply) =>
        if truthy (strip reply) then
          match requests_post w (trace s ++ [call]) (Main.tts_url voice_id)
                  (Main.tts_data (Some (strip reply))) (Main.tts_headers api_key) with
          | HttpReturns r =>
              if (status_code r =? 200)%Z then
                if truthy (content r) then
                  let e := {| original_text := text_in;
                              rewritten_text := Some (strip reply);
                              tone := tone_in; voice_name := voice_in;
                              audio_data := Some (content r) |} in
                  match history s with
                  | Some h =>
                      (Return (),
                       set_history (Some (e :: h))
                         (logged ([call; post (strip reply)] ++ success_message) s))
                  | None =>
                      (Raise Main.no_history_attribute,
                       logged ([call; post (strip reply)] ++ success_message) s)
                  end
                else (Return (), logged [call; post (strip reply)] s)
              else
                (Return (),
                 logged [ call; post (strip reply);
                          StError (lit "ElevenLabs API Error: "
                                   ++ str_of_int (status_code r)
                                   ++ lit " - " ++ text r) ] s)
          | HttpRaises e =>
              (Return (),
               logged [ call; post (strip reply);
                        StError (lit "An error occurred while calling the ElevenLabs API: "
                                 ++ exn_str e) ] s)
          end
        else (Return (), logged [call] s)
    | LlmReturns (RespBlocked e) | LlmReturns (RespNoText e) | LlmRaises e =>
        (Return (),
         logged [call; StError (lit "Error rewriting text with Gemini: " ++ exn_str e)] s)
    end
  else (Return (), logged [StWarning (lit "Please provide text to continue.")] s).
Proof.
  rewrite generate_audiobook_run.
  destruct (truthy text_in && truthy voice_id) eqn:Hg; [|done].
  apply andb_prop in Hg as [Ht Hv].
  rewrite rewrite_text_with_llm_run.
  assert (truthy (Some text_in) = true) as -> by done. simpl. fold call.
  destruct (generate_content w (trace s) gemini_model _ None) as [[reply|e|e]|e];
    [|done|done|done].
  change (truthy (Some (strip reply))) with (truthy (strip reply)).
  destruct (truthy (strip reply)) eqn:Hr; [|done].
  rewrite convert_text_to_speech_run, trace_logged.
  assert (truthy (Some (strip reply)) && truthy voice_id = true) as ->
    by (change (truthy (Some (strip reply))) with (truthy (strip reply)); by rewrite Hr, Hv).
  simpl. fold (post (strip reply)).
  destruct (requests_post w (trace s ++ [call]) _ _ _) as [r|e];
    [|by rewrite logged_logged].
  destruct (status_code r =? 200)%Z; [|by rewrite logged_logged].
  change (truthy (Some (content r))) with (truthy (content r)).
  destruct (truthy (content r)); [|by rewrite logged_logged].
  rewrite !logged_logged. simpl. destruct (history s); done.
Qed.

End HandlerPaths.

(** X1.  The success path of the handler.  With a text, a voice identifier,
    a model answer that is not blank and a 200 answer with a body, the
    handler makes the two calls in that order, shows the success message and
    puts one record in front of the history: the text as given, the answer
    stripped, the tone, the voice name and the body of the 200 answer. *)
Theorem generation_succeeds
    (w : World) (api_key text_in tone_in voice_in voice_id reply : str)
    (r : http_response) (h : list entry) (s : state) :
  text_in ≠ [] → voice_id ≠ [] → history s = Some h →
  let call := GenerateContent (lit "gemini-1.5-flash-latest")
                (Main.rewrite_prompt tone_in (Some text_in)) None in
  let post := RequestsPost (lit "https://api.elevenlabs.io/v1/text-to-speech/" ++ voice_id)
                (Main.tts_data (Some (strip reply))) (Main.tts_headers api_key) in
  generate_content w (trace s) (lit "gemini-1.5-flash-latest")
    (Main.rewrite_prompt tone_in (Some text_in)) None = LlmReturns (RespText reply) →
  strip reply ≠ [] →
  requests_post w (trace s ++ [call]) (lit "https://api.elevenlabs.io/v1/text-to-speech/" ++ voice_id)
    (Main.tts_data (Some (strip reply))) (Main.tts_headers api_key) = HttpReturns r →
  status_code r = 200%Z → content r ≠ [] →
  Main.generate_audiobook w api_key text_in tone_in voice_in (Some voice_id) s
  = (Return (),
     set_history
       (Some ({| original_text := text_in; rewritten_text := Some (strip reply);
                 tone := tone_in; voice_name := voice_in;
                 audio_data := Some (content r) |} :: h))
       (logged [call; post; StSuccess ([9989] ++ lit " Audiobook generated successfully!")] s)).
Proof.
  intros Ht Hv Hh call post Hgen Hrep Hpost Hst Hbody.
  rewrite generate_audiobook_paths.
  destruct text_in as [|c t]; [done|]. destruct voice_id as [|d v]; [done|]. simpl.
  change gemini_model with (lit "gemini-1.5-flash-latest"). rewrite Hgen.
  destruct (strip reply) as [|a b] eqn:Hs; [done|]. simpl.
  change (Main.tts_url (Some (d :: v)))
    with (lit "https://api.elevenlabs.io/v1/text-to-speech/" ++ d :: v).
  fold call. rewrite Hpost, Hst. simpl.
  destruct (content r); [done|]. simpl. by rewrite Hh.
Qed.

Lemma generation_succeeds_witness :
  history (Main.generate_audiobook Examples.good (lit "xi-key") (lit "Hi") (lit "Poetic")
             (lit "Rachel") (Some (lit "21m00")) Examples.ready).2
  = Some [ {| original_text := lit "Hi"; rewritten_text := Some (lit "Once upon a time.");
              tone := lit "Poetic"; voice_name := lit "Rachel";
              audio_data := Some Examples.mp3 |} ].
Proof.
  rewrite (generation_succeeds Examples.good (lit "xi-key") (lit "Hi") (lit "Poetic")
             (lit "Rachel") (lit "21m00") (lit "  Once upon a time. " ++ newline)
             {| status_code := 200; content := Examples.mp3; text := [] |} []
             Examples.ready); by vm_compute.
Defined.

(** X2.  Where a record comes from.  Whenever the handler changes the
    history, it has put exactly one record in front of it, and that record
    holds the stripped answer of this run's model call and the body of the
    200 answer to the synthesis request made for that very text and for the
    selected voice. *)
Theorem record_provenance
    (w : World) (api_key text_in tone_in voice_in : str) (voice_id : option str)
    (s : state) :
  let s' := (Main.generate_audiobook w api_key text_in tone_in voice_in voice_id s).2 in
  history s' ≠ history s →
  let call := GenerateContent gemini_model (Main.rewrite_prompt tone_in (Some text_in)) None in
  ∃ reply r h,
    generate_content w (trace s) gemini_model
      (Main.rewrite_prompt tone_in (Some text_in)) None = LlmReturns (RespText reply)
    ∧ requests_post w (trace s ++ [call]) (Main.tts_url voice_id)
        (Main.tts_data (Some (strip reply))) (Main.tts_headers api_key) = HttpReturns r
    ∧ status_code r = 200%Z
    ∧ history s = Some h
    ∧ history s' = Some ({| original_text := text_in; rewritten_text := Some (strip reply);
                            tone := tone_in; voice_name := voice_in;
                            audio_data := Some (content r) |} :: h)
    ∧ strip reply ≠ [] ∧ content r ≠ [] ∧ text_in ≠ [] ∧ truthy voice_id = true.
Proof.
  intros s' Hch call. subst s'. rewrite generate_audiobook_paths in *.
  destruct (truthy text_in && truthy voice_id) eqn:Hg; [|done].
  apply andb_prop in Hg as [Ht Hv].
  destruct (generate_content w (trace s) gemini_model _ None) as [[reply|e|e]|e];
    [|done|done|done].
  destruct (truthy (strip reply)) eqn:Hr; [|done].
  destruct (requests_post w _ _ _ _) as [r|e] eqn:Hp; [|done].
  destruct (status_code r =? 200)%Z eqn:Hst; [|done].
  destruct (truthy (content r)) eqn:Hc; [|done].
  destruct (history s) as [h|] eqn:Hh; [|simpl in Hch; by rewrite Hh in Hch].
  exists reply, r, h. apply Z.eqb_eq in Hst.
  repeat split; try done.
  - by destruct (strip reply).
  - by destruct (content r).
  - by destruct text_in.
Qed.

Lemma record_provenance_witness :
  ∃ reply r,
    generate_content Examples.good (trace Examples.ready) gemini_model
      (Main.rewrite_prompt (lit "Poetic") (Some (lit "Hi"))) None = LlmReturns (RespText reply)
    ∧ status_code r = 200%Z
    ∧ history (Main.generate_audiobook Examples.good (lit "xi-key") (lit "Hi") (lit "Poetic")
                 (lit "Rachel") (Some (lit "21m00")) Examples.ready).2
      = Some [ {| original_text := lit "Hi"; rewritten_text := Some (strip reply);
                  tone := lit "Poetic"; voice_name := lit "Rachel";
                  audio_data := Some (content r) |} ].
Proof.
  destruct (record_provenance Examples.good (lit "xi-key") (lit "Hi") (lit "Poetic")
              (lit "Rachel") (Some (lit "21m00")) Examples.ready)
    as (reply & r & h & Hg & _ & Hst & Hh & Hs & _).
  - by vm_compute.
  - exists reply, r. injection Hh as <-. done.
Defined.

(** X3.  A model answer of blanks only ends the generation without a
    word: one model call, no synthesis request, no record, and neither an
    error nor a warning nor a success message. *)
Theorem blank_reply_ends_silently
    (w : World) (api_key text_in tone_in voice_in : str) (voice_id : option str)
    (reply : str) (s : state) :
  truthy text_in = true → truthy voice_id = true →
  generate_content w (trace s) gemini_model
    (Main.rewrite_prompt tone_in (Some text_in)) None = LlmReturns (RespText reply) →
  forallb isspace reply = true →
  let r := Main.generate_audiobook w api_key text_in tone_in voice_in voice_id s in
  r = (Return (),
       logged [GenerateContent gemini_model (Main.rewrite_prompt tone_in (Some text_in)) None] s)
  ∧ filter is_message (new_events s r.2) = []
  ∧ history r.2 = history s.
Proof.
  intros Ht Hv Hg Hb r. subst r. rewrite generate_audiobook_paths, Ht, Hv, Hg. simpl.
  assert (strip reply = []) as ->.
  { destruct (strip_spec reply) as ((l & r & Hs & Hl & Hr) & Hhead & _).
    destruct (strip reply) as [|c t] eqn:E; [done|].
    specialize (Hhead c t eq_refl).
    rewrite Hs, !forallb_app in Hb. simpl in Hb. rewrite Hhead in Hb.
    by rewrite andb_false_r in Hb. }
  simpl. by rewrite new_events_logged.
Qed.

Lemma blank_reply_ends_silently_witness :
  Main.generate_audiobook Scenarios.blank_reply (lit "xi-key") (lit "Hi") (lit "Poetic")
    (lit "Rachel") (Some (lit "21m00")) Examples.ready
  = (Return (),
     logged [GenerateContent gemini_model
               (Main.rewrite_prompt (lit "Poetic") (Some (lit "Hi"))) None] Examples.ready).
Proof.
  apply (blank_reply_ends_silently Scenarios.blank_reply (lit "xi-key") (lit "Hi")
           (lit "Poetic") (lit "Rachel") (Some (lit "21m00")) [32; 10; 9] Examples.ready);
    by vm_compute.
Defined.

(** X4.  A 200 answer with an empty body ends the generation without a
    word as well: both calls are made, nothing is shown and no record is
    created. *)
Theorem empty_audio_ends_silently
    (w : World) (api_key text_in tone_in voice_in : str) (voice_id : option str)
    (reply : str) (resp : http_response) (s : state) :
  truthy text_in = true → truthy voice_id = true →
  let call := GenerateContent gemini_model (Main.rewrite_prompt tone_in (Some text_in)) None in
  let post := RequestsPost (Main.tts_url voice_id) (Main.tts_data (Some (strip reply)))
                (Main.tts_headers api_key) in
  generate_content w (trace s) gemini_model
    (Main.rewrite_prompt tone_in (Some text_in)) None = LlmReturns (RespText reply) →
  strip reply ≠ [] →
  requests_post w (trace s ++ [call]) (Main.tts_url voice_id)
    (Main.tts_data (Some (strip reply))) (Main.tts_headers api_key) = HttpReturns resp →
  status_code resp = 200%Z → content resp = [] →
  let r := Main.generate_audiobook w api_key text_in tone_in voice_in voice_id s in
  r = (Return (), logged [call; post] s)
  ∧ filter is_message (new_events s r.2) = []
  ∧ history r.2 = history s.
Proof.
  intros Ht Hv call post Hg Hs Hp Hst Hc r. subst r.
  rewrite generate_audiobook_paths, Ht, Hv, Hg. simpl.
  destruct (strip reply) as [|a b] eqn:E; [done|]. simpl.
  fold call. rewrite Hp, Hst, Hc. simpl. by rewrite new_events_logged.
Qed.

Lemma empty_audio_ends_silently_witness :
  history (Main.generate_audiobook Scenarios.empty_audio (lit "xi-key") (lit "Hi")
             (lit "Poetic") (lit "Rachel") (Some (lit "21m00")) Examples.ready).2
  = Some [].
Proof.
  refine (proj2 (proj2 (empty_audio_ends_silently Scenarios.empty_audio (lit "xi-key")
            (lit "Hi") (lit "Poetic") (lit "Rachel") (Some (lit "21m00"))
            (lit "  Once upon a time. " ++ newline)
            {| status_code := 200; content := []; text := [] |} Examples.ready
            _ _ _ _ _ _ _))); by vm_compute.
Defined.

(** X5.  The warning "Please provide text to continue." is shown exactly
    when the text is empty or the voice identifier is empty or absent; it is
    then the only thing the handler does. *)
Theorem warning_iff_missing_input
    (w : World) (api_key text_in tone_in voice_in : str) (voice_id : option str)
    (s : state) :
  let r := Main.generate_audiobook w api_key text_in tone_in voice_in voice_id s in
  existsb is_warning (new_events s r.2) = negb (truthy text_in && truthy voice_id)
  ∧ (existsb is_warning (new_events s r.2) = true →
     r = (Return (), logged [StWarning (lit "Please provide text to continue.")] s)).
Proof.
  intros r. subst r. rewrite generate_audiobook_paths.
  destruct (truthy text_in && truthy voice_id); simpl;
    [|by rewrite new_events_logged].
  assert (∀ evs o, existsb is_warning evs = false →
            existsb is_warning (new_events s (o, logged evs s).2) = false
            ∧ (existsb is_warning (new_events s (o : outcome (), logged evs s).2) = true →
               (o, logged evs s)
               = (Return (), logged [StWarning (lit "Please provide text to continue.")] s)))
    as Hno.
  { intros evs o H. simpl. rewrite new_events_logged, H. by split. }
  destruct (generate_content w (trace s) gemini_model _ None) as [[reply|e|e]|e];
    try by apply Hno.
  destruct (truthy (strip reply)); [|by apply Hno].
  destruct (requests_post w _ _ _ _) as [r|e]; [|by apply Hno].
  destruct (status_code r =? 200)%Z; [|by apply Hno].
  destruct (truthy (content r)); [|by apply Hno].
  destruct (history s); unfold new_events; simpl; rewrite drop_app_length; by split.
Qed.

(** ** One run of the script, path by path *)

Section ScriptPaths.
Variable w : World.

Lemma script_paths (p : Main.page) (s : state) :
  Main.script w p s =
  match Main.startup w s with
  | (Return key, s0) =>
      let s2 := logged (input_events p) (initialised s0) in
      match Main.voice_choice p with
      | inl e =>
          (Stop,
           logged [ voices_request key;
                    StError (lit "Could not fetch voices. Check network/API key. Error: "
                             ++ exn_str e) ] s2)
      | inr (name, id) =>
          if Main.button p then
            Main.generate_audiobook w key (page_text p)
              (Main.tone_label (Main.tone_choice p)) name id (logged [voices_request key] s2)
          else (Return (), logged [voices_request key] s2)
      end
  | (Raise e, s0) => (Raise e, s0)
  | (Stop, s0) => (Stop, s0)
  end.
Proof.
  unfold Main.script. unfold bind at 1.
  destruct (Main.startup w s) as [[key|e|] s0]; [|done|done].
  unfold bind at 1, Main.init_history. unfold input_events, initialised, page_text.
  destruct (history s0) as [h|] eqn:Hh;
    (destruct (Main.input_method p) as [v| |[e|t]]; rewrite ?logged_nil;
     unfold Main.input_layer, Main.voice_layer;
     (destruct (Main.voice_choice p) as [e'|[name id]]; run;
      [f_equal; same_state | by destruct (Main.button p)])).
Qed.

End ScriptPaths.

Lemma initialised_spec (s : state) :
  trace (initialised s) = trace s ∧ history (initialised s) = Some (records s)
  ∧ resource_cache (initialised s) = resource_cache s
  ∧ environ (initialised s) = environ s.
Proof. unfold initialised, records. by destruct s as [t e c [h|]]. Qed.






Lemma startup_history (w : World) (s : state) :
  history (Main.startup w s).2 = history s.
Proof. by destruct (startup_quiet w s) as (evs & _ & _ & H). Qed.

(** X7.  When the voice catalog cannot be fetched, the run ends right
    there, button pressed or not: the last thing shown is the error with
    the exception's text, and the history keeps its records. *)
Theorem voice_failure_stops_the_run
    (w : World) (p : Main.page) (s s0 : state) (key : str) (e : exn) :
  Main.startup w s = (Return key, s0) →
  Main.voice_choice p = inl e →
  let r := Main.script w p s in
  r.1 = Stop
  ∧ last (trace r.2)
    = Some (StError (lit "Could not fetch voices. Check network/API key. Error: "
                     ++ exn_str e))
  ∧ records r.2 = records s.
Proof.
  intros Hs Hv r. subst r. rewrite script_paths, Hs, Hv. simpl.
  split; [done|]. split.
  - by rewrite last_app.
  - destruct (initialised_spec s0) as (_ & Hh & _).
    pose proof (startup_history w s) as H0. rewrite Hs in H0. simpl in H0.
    unfold records at 1. simpl. rewrite Hh. simpl. unfold records. by rewrite H0.
Qed.

Lemma voice_failure_stops_the_run_witness :
  (Main.script Examples.good Scenarios.no_voices Examples.ready).1 = Stop
  ∧ records (Main.script Examples.good Scenarios.no_voices Examples.ready).2 = [].
Proof.
  destruct (voice_failure_stops_the_run Examples.good Scenarios.no_voices Examples.ready
              Examples.ready (lit "xi-key") Examples.boom) as (H1 & _ & H3);
    [by vm_compute | done | by split].
Defined.

(** X8.  An uploaded file that does not decode leaves the text empty: the
    decoding error is shown, and pressing the button then only brings the
    warning; no model call and no synthesis request is made. *)
Theorem undecodable_upload_gives_no_text
    (w : World) (p : Main.page) (s s0 : state) (key name : str) (id : option str)
    (e : exn) :
  Main.startup w s = (Return key, s0) →
  Main.input_method p = Main.Upload (inl e) →
  Main.voice_choice p = inr (name, id) →
  Main.button p = true →
  Main.script w p s
  = (Return (),
     logged [ StError (lit "Error reading file: " ++ exn_str e);
              voices_request key;
              StWarning (lit "Please provide text to continue.") ] (initialised s0)).
Proof.
  intros Hs Hi Hv Hb. rewrite script_paths, Hs, Hv, Hb. simpl.
  rewrite generate_audiobook_paths. unfold page_text, input_events. rewrite Hi. simpl.
  by rewrite !logged_logged.
Qed.

Lemma undecodable_upload_gives_no_text_witness :
  Main.script Examples.good Scenarios.bad_upload Examples.ready
  = (Return (),
     logged [ StError (lit "Error reading file: 503 service unavailable");
              voices_request (lit "xi-key");
              StWarning (lit "Please provide text to continue.") ] Examples.ready).
Proof.
  apply (undecodable_upload_gives_no_text Examples.good Scenarios.bad_upload Examples.ready
           Examples.ready (lit "xi-key") (lit "Rachel") (Some (lit "21m00")) Examples.boom);
    by vm_compute.
Defined.

(** ** Startup and the cached key *)

(** X9.  When [genai.configure] raises, the first run ends in [st.stop()]
    after the error with the exception's text; nothing is cached, so the
    next run goes through the configuration again. *)
Theorem configure_failure_halts
    (w : World) (p : Main.page) (s : state) (google eleven : str) (e : exn) :
  resource_cache s = None →
  let env := environ s ∪ dotenv w in
  env !! lit "GOOGLE_API_KEY" = Some google → google ≠ [] →
  env !! lit "ELEVENLABS_API_KEY" = Some eleven → eleven ≠ [] →
  genai_configure w (trace s) google = Some e →
  let r := Main.script w p s in
  r = (Stop,
       logged [ GenaiConfigure google;
                StError (lit "Failed to configure Google Gemini API: " ++ exn_str e) ]
         (set_environ env s))
  ∧ resource_cache r.2 = None.
Proof.
  intros Hc env Hg Hgn He Hen Hf r. subst r.
  rewrite script_paths, startup_run, Hc. fold env. simpl. rewrite Hg, He.
  destruct google as [|c g]; [done|]. destruct eleven as [|d x]; [done|].
  rewrite Hf. by split.
Qed.

Lemma configure_failure_halts_witness :
  (Main.script Scenarios.configure_fails (Examples.press (lit "Hi")) Scenarios.cold).1 = Stop
  ∧ resource_cache
      (Main.script Scenarios.configure_fails (Examples.press (lit "Hi")) Scenarios.cold).2
    = None.
Proof.
  refine (match configure_failure_halts Scenarios.configure_fails
                  (Examples.press (lit "Hi")) Scenarios.cold (lit "g-key") (lit "xi-key")
                  Examples.boom _ _ _ _ _ _ with
          | conj H1 H2 => conj (f_equal fst H1) H2
          end); by vm_compute.
Defined.

(** X10.  With both keys present and the client configured, the first
    startup hands out the ElevenLabs key, having passed the Google key to
    [genai.configure], and caches it: every later startup returns that key
    without reading the environment or configuring again, whatever the
    environment and the world have become. *)
Theorem startup_caches_the_key
    (w : World) (s : state) (google eleven : str) :
  resource_cache s = None →
  let env := environ s ∪ dotenv w in
  env !! lit "GOOGLE_API_KEY" = Some google → google ≠ [] →
  env !! lit "ELEVENLABS_API_KEY" = Some eleven → eleven ≠ [] →
  genai_configure w (trace s) google = None →
  let s1 := set_resource_cache (Some eleven)
              (logged [GenaiConfigure google] (set_environ env s)) in
  Main.startup w s = (Return eleven, s1)
  ∧ ∀ w' s2, resource_cache s2 = resource_cache s1 →
             Main.startup w' s2 = (Return eleven, s2).
Proof.
  intros Hc env Hg Hgn He Hen Hok s1. split.
  - rewrite startup_run, Hc. fold env. simpl. rewrite Hg, He.
    destruct google as [|c g]; [done|]. destruct eleven as [|d x]; [done|].
    by rewrite Hok.
  - intros w' s2 H2. rewrite startup_run, H2. done.
Qed.

Lemma startup_caches_the_key_witness :
  Main.startup Examples.good Scenarios.cold
  = (Return (lit "xi-key"),
     set_resource_cache (Some (lit "xi-key"))
       (logged [GenaiConfigure (lit "g-key")]
          (set_environ (environ Scenarios.cold ∪ dotenv Examples.good) Scenarios.cold))).
Proof.
  apply (startup_caches_the_key Examples.good Scenarios.cold (lit "g-key") (lit "xi-key"));
    by vm_compute.
Defined.




(** ** What the history holds *)

(** X12.  Every run keeps the records well formed: a session that starts
    from records with a non-empty rewritten text, non-empty audio and a tone
    of the selector ends with such records only. *)
Theorem records_stay_well_formed (w : World) (ps : list Main.page) (s : state) :
  Forall well_formed (records s) →
  Forall well_formed (records (Main.session w ps s)).
Proof.
  revert s. induction ps as [|p ps IH]; intros s Hs; simpl; [done|].
  apply IH. destruct (script_step w p s) as (evs & _ & [(_ & R & _) | Hnew]).
  - by rewrite R.
  - destruct Hnew as (e & vid & _ & H & _ & Ht & _ & Hr & Ha & _).
    unfold records at 1. rewrite H. simpl. constructor; [|done].
    split; [done|]. split; [done|]. by exists (Main.tone_choice p).
Qed.

Lemma records_stay_well_formed_witness :
  Forall well_formed (records Examples.fresh)
  ∧ Forall well_formed
      (records (Main.session Examples.good
                  [Examples.press (lit "first"); Examples.press (lit "second")]
                  Examples.fresh)).
Proof.
  assert (Forall well_formed (records Examples.fresh)) as H by constructor.
  split; [done|].
  by apply (records_stay_well_formed Examples.good
              [Examples.press (lit "first"); Examples.press (lit "second")] Examples.fresh).
Defined.

(** ** The display sections *)

Local Transparent lit.

Lemma lit_inj (a b : string) : lit a = lit b → a = b.
Proof.
  revert b. induction a as [|c a IH]; intros [|d b]; simpl; try done.
  intros [= Hc Hl]. f_equal; [|by apply IH].
  apply (f_equal ascii_of_N) in Hc. by rewrite !ascii_N_embedding in Hc.
Qed.

Local Opaque lit.

Lemma to_int_not_nil (z : Z) :
  Z.to_int z ≠ Decimal.Pos Decimal.Nil ∧ Z.to_int z ≠ Decimal.Neg Decimal.Nil.
Proof.
  pose proof (DecimalZ.to_of (Z.to_int z)) as H. rewrite DecimalZ.of_to in H.
  split; intros E; rewrite E in H; discriminate H.
Qed.

(** Decimal rendering loses nothing: different integers print differently. *)
Lemma str_of_int_inj (a b : Z) : str_of_int a = str_of_int b → a = b.
Proof.
  unfold str_of_int. intros H%lit_inj.
  apply (f_equal NilZero.int_of_string) in H.
  destruct (to_int_not_nil a), (to_int_not_nil b).
  rewrite !NilZero.isi in H by done. injection H as H.
  by apply DecimalZ.to_int_inj.
Qed.

Lemma flat_map_keys_imap (f : nat → entry → Display.widget) (g : nat → str)
    (h : list entry) :
  (∀ i e, Display.widget_keys (f i e) = [g i]) →
  flat_map Display.widget_keys (imap f h) = g <$> seq 0 (length h).
Proof.
  intros Hf. rewrite <- (imap_seq_0 h g). revert f g Hf.
  induction h as [|e h IH]; intros f g Hf; [done|]. simpl. rewrite Hf. simpl.
  f_equal. apply (IH (f ∘ S) (g ∘ S)). intros i e'. apply Hf.
Qed.

Lemma display_keys (s : state) :
  flat_map Display.widget_keys (display s)
  = match records s with
    | [] => []
    | _ :: _ =>
        [lit "latest_orig"; lit "latest_rewritten"]
        ++ ((λ i, lit "download_" ++ str_of_int (Z.of_nat i)) <$> seq 0 (length (records s)))
    end.
Proof.
  unfold display. destruct (records s) as [|e h]; [done|].
  rewrite flat_map_app. f_equal.
  unfold Display.past_narrations.
  change (0 <? length (e :: h))%nat with true. cbv iota.
  change (flat_map Display.widget_keys [Display.Expander ?l ?c])
    with (flat_map Display.widget_keys c ++ []).
  rewrite app_nil_r. by apply flat_map_keys_imap.
Qed.

(** X13.  No two widgets of the display sections share a key, whatever the
    history holds: the two text areas of the latest result and the download
    buttons of the past narrations, one per record, all have keys of their
    own. *)
Theorem widget_keys_are_distinct (s : state) :
  NoDup (flat_map Display.widget_keys (display s))
  ∧ length (flat_map Display.widget_keys (display s))
    = match records s with [] => 0%nat | h => (2 + length h)%nat end.
Proof.
  rewrite display_keys. destruct (records s) as [|e h]; [split; [constructor | done]|].
  set (key := λ i : nat, lit "download_" ++ str_of_int (Z.of_nat i)).
  assert (Inj (=) (=) key) as Hinj.
  { intros i j H. unfold key in H. apply app_inv_head in H.
    apply str_of_int_inj in H. lia. }
  assert (∀ i, head (key i) = Some 100) as Hd by (intros i; by vm_compute).
  split.
  - apply NoDup_app. split; [|split].
    + apply NoDup_cons. split; [|apply NoDup_singleton].
      intros H%list_elem_of_singleton. by vm_compute in H.
    + intros x Hx (i & -> & _)%list_elem_of_fmap.
      specialize (Hd i).
      apply elem_of_cons in Hx as [Hx | Hx%list_elem_of_singleton];
        rewrite Hx in Hd; by vm_compute in Hd.
    + apply NoDup_fmap_2; [done | apply NoDup_seq].
  - rewrite length_app, length_fmap, length_seq. done.
Qed.

(** X14.  Narration numbers follow the order of creation.  In a session
    that starts with an empty history, the past-narrations panel lists as
    many records as were created, and the record created by the (k+1)-th
    successful generation is shown as "Narration k+1", however many records
    were created after it. *)
Theorem narration_numbers_follow_creation
    (w : World) (ps : list Main.page) (s : state) :
  records s = [] →
  let s' := Main.session w ps s in
  let created := generations w ps s in
  let n := length (records s') in
  n = length created
  ∧ ∀ k e, created !! k = Some e →
      ∃ i, records s' !! i = Some e
           ∧ imap (Display.narration n) (records s') !! i = Some (Display.narration n i e)
           ∧ Display.narration_number n i = (Z.of_nat k + 1)%Z.
Proof.
  intros Hs s' created n. destruct (session_history w ps s) as (R & _ & _).
  fold s' created in R. rewrite Hs, app_nil_r in R.
  assert (n = length created) as Hn by (subst n; by rewrite R, length_rev).
  split; [done|]. intros k e Hk.
  pose proof (lookup_lt_Some _ _ _ Hk) as Hlt.
  exists (length created - S k)%nat.
  assert (records s' !! (length created - S k)%nat = Some e) as Hi.
  { rewrite R, rev_alt. fold (reverse created).
    rewrite reverse_lookup by lia.
    by replace (length created - S (length created - S k))%nat with k by lia. }
  split; [done|]. split.
  - by rewrite list_lookup_imap, Hi.
  - unfold Display.narration_number. lia.
Qed.

Lemma narration_numbers_follow_creation_witness :
  records Examples.fresh = []
  ∧ ∃ e i, original_text e = lit "first"
           ∧ records (Main.session Examples.good
                        [Examples.press (lit "first"); Examples.press (lit "second")]
                        Examples.fresh) !! i = Some e
           ∧ Display.narration_number 2 i = 1%Z.
Proof.
  split; [done|].
  destruct (narration_numbers_follow_creation Examples.good
              [Examples.press (lit "first"); Examples.press (lit "second")]
              Examples.fresh eq_refl) as [Hn Hk].
  destruct (Hk 0%nat
              {| original_text := lit "first"; rewritten_text := Some (lit "Once upon a time.");
                 tone := lit "Suspenseful"; voice_name := lit "Rachel";
                 audio_data := Some Examples.mp3 |}) as (i & Hi & _ & Hnum);
    [by vm_compute|].
  eexists _, i. split; [|split; [exact Hi|]]; [done|].
  replace 2%nat with (length (records (Main.session Examples.good
                        [Examples.press (lit "first"); Examples.press (lit "second")]
                        Examples.fresh))) by (by vm_compute).
  exact Hnum.
Defined.

(** ** The voice catalog *)

Section VoiceMap.
Import Voices.

Lemma dict_set_keys {V} (k : str) (v : V) (d : list (str * V)) :
  (dict_set k v d).*1 = if decide (k ∈ d.*1) then d.*1 else d.*1 ++ [k].
Proof.
  induction d as [|[k' v'] d IH].
  - destruct (decide (k ∈ ([] : list (str * V)).*1)) as [H|H]; [|done].
    by apply elem_of_nil in H.
  - change (((k', v') :: d).*1) with (k' :: d.*1).
    change (dict_set k v ((k', v') :: d))
      with (if decide (k' = k) then (k', v) :: d else (k', v') :: dict_set k v d).
    destruct (decide (k' = k)) as [->|Hne].
    + destruct (decide (k ∈ k :: d.*1)) as [H|H]; [done|].
      exfalso. apply H. apply list_elem_of_here.
    + change (((k', v') :: dict_set k v d).*1) with (k' :: (dict_set k v d).*1).
      rewrite IH.
      destruct (decide (k ∈ d.*1)) as [Hin|Hin];
        destruct (decide (k ∈ k' :: d.*1)) as [H|H]; try done.
      * exfalso. apply H. by apply list_elem_of_further.
      * apply elem_of_cons in H as [?|?]; [by subst | done].
Qed.

Lemma dict_get_set {V} (k k' : str) (v : V) (d : list (str * V)) :
  dict_get k' (dict_set k v d) = if decide (k = k') then Some v else dict_get k' d.
Proof.
  induction d as [|[k0 v0] d IH]; simpl.
  - by destruct (decide (k = k')).
  - destruct (decide (k0 = k)) as [->|Hne]; simpl.
    + by destruct (decide (k = k')).
    + destruct (decide (k0 = k')) as [->|Hne'].
      * by rewrite decide_False by done.
      * apply IH.
Qed.

Lemma voice_map_snoc (voices : list (str * option str)) (name : str) (id : option str) :
  voice_map (voices ++ [(name, id)]) = dict_set name id (voice_map voices).
Proof. unfold voice_map. by rewrite foldl_app. Qed.

Lemma voice_map_keys (voices : list (str * option str)) :
  NoDup (options voices) ∧ ∀ name, name ∈ options voices ↔ name ∈ voices.*1.
Proof.
  unfold options. induction voices as [|[name id] voices [IHn IHm]] using rev_ind.
  - split; [constructor | done].
  - rewrite voice_map_snoc, dict_set_keys, fmap_app. simpl.
    destruct (decide (name ∈ (voice_map voices).*1)) as [Hin|Hin].
    + split; [done|]. intros k. rewrite elem_of_app, list_elem_of_singleton, IHm.
      split; [by left|]. intros [?| ->]; [done | by apply IHm].
    + split.
      * apply NoDup_app. split; [done|]. split; [|apply NoDup_singleton].
        intros x Hx ->%list_elem_of_singleton. done.
      * intros k. by rewrite !elem_of_app, IHm.
Qed.

Lemma voice_map_get (voices : list (str * option str)) (name : str) :
  dict_get name (voice_map voices) = snd <$> last (filter (λ v, v.1 = name) voices).
Proof.
  induction voices as [|[k id] voices IH] using rev_ind; [done|].
  rewrite voice_map_snoc, dict_get_set, filter_app.
  destruct (decide (k = name)) as [->|Hne].
  - rewrite filter_cons_True, filter_nil by done. by rewrite last_snoc.
  - rewrite filter_cons_False, filter_nil, app_nil_r by done. apply IH.
Qed.

End VoiceMap.

(** X15.  The selector offers every name of the catalog exactly once, and
    a pick never fails: the picked name comes with the identifier of the
    last catalog entry of that name. *)
Theorem picked_voice_is_in_the_catalog
    (voices_data : list (str * option str)) (index : nat) :
  (index < length (Voices.options voices_data))%nat →
  NoDup (Voices.options voices_data)
  ∧ (∀ name, name ∈ Voices.options voices_data ↔ name ∈ voices_data.*1)
  ∧ ∃ name id,
      Voices.options voices_data !! index = Some name
      ∧ last (filter (λ v, v.1 = name) voices_data) = Some (name, id)
      ∧ Voices.voice_block (inr voices_data) index = inr (name, id).
Proof.
  intros Hlt. destruct (voice_map_keys voices_data) as [Hn Hm].
  split; [done|]. split; [done|].
  destruct (lookup_lt_is_Some_2 _ _ Hlt) as [name Hname].
  assert (name ∈ voices_data.*1) as Hin
    by (apply Hm; by eapply list_elem_of_lookup_2).
  pose proof (voice_map_get voices_data name) as Hget.
  destruct (last (filter (λ v, v.1 = name) voices_data)) as [[k id]|] eqn:Hl.
  - assert (k = name) as ->.
    { apply last_Some_elem_of in Hl. by apply list_elem_of_filter in Hl as [? _]. }
    exists name, id. split; [done|]. split; [done|].
    unfold Voices.voice_block, Voices.selectbox. fold (Voices.options voices_data).
    rewrite Hname. simpl in Hget. by rewrite Hget.
  - exfalso. apply list_elem_of_fmap in Hin as ([k id] & -> & Hin).
    assert ((k, id) ∈ filter (λ v, v.1 = k) voices_data) as Hf
      by (by apply list_elem_of_filter).
    apply last_None in Hl. simpl in Hl. rewrite Hl in Hf. by apply elem_of_nil in Hf.
Qed.

Lemma picked_voice_is_in_the_catalog_witness :
  (0 < length (Voices.options Scenarios.catalog))%nat
  ∧ Voices.voice_block (inr Scenarios.catalog) 0 = inr (lit "Rachel", Some (lit "zzz99")).
Proof.
  assert (0 < length (Voices.options Scenarios.catalog))%nat as H by (vm_compute; lia).
  split; [done|].
  destruct (picked_voice_is_in_the_catalog Scenarios.catalog 0 H)
    as (_ & _ & name & id & Hn & Hl & Hb).
  rewrite Hb. vm_compute in Hn. injection Hn as <-.
  vm_compute in Hl. by injection Hl as <-.
Defined.

(** X16.  An empty catalog leaves nothing to pick: the lookup of the
    missing selection raises, and the run ends like any failed fetch, with
    "None" as the error text and without reaching the button. *)
Theorem empty_catalog_stops_the_run
    (w : World) (p : Main.page) (s s0 : state) (key : str) (index : nat) :
  Main.startup w s = (Return key, s0) →
  Main.voice_choice p = Voices.voice_block (inr []) index →
  let r := Main.script w p s in
  r.1 = Stop
  ∧ new_events s0 r.2
    = input_events p
      ++ [ voices_request key;
           StError (lit "Could not fetch voices. Check network/API key. Error: "
                    ++ lit "None") ].
Proof.
  intros Hs Hv r. subst r. rewrite script_paths, Hs, Hv.
  assert (Voices.voice_block (inr []) index = inl (Voices.KeyError None)) as ->
    by (by destruct index).
  simpl. split; [done|]. destruct (initialised_spec s0) as (Ti & _).
  apply new_events_extends. simpl. by rewrite Ti, <- app_assoc.
Qed.

Lemma empty_catalog_stops_the_run_witness :
  (Main.script Examples.good Scenarios.empty_catalog Examples.ready).1 = Stop.
Proof.
  by apply (empty_catalog_stops_the_run Examples.good Scenarios.empty_catalog
              Examples.ready Examples.ready (lit "xi-key") 0).
Defined.

(** * Further properties of title.py *)

(** X17.  With a key set and a model answer that carries a text,
    [generate_fictional_story] makes one call, to gemini-1.5-flash-latest
    with temperature 0.8, top_p 0.95 and at most 1024 output tokens, whose
    prompt holds the user's idea between quotes inside the fixed template,
    and returns the answer stripped. *)
Theorem story_prompt_and_result
    (w : World) (key prompt_text reply : str) (s : state) :
  key ≠ [] →
  let full_prompt :=
    lit "You are a master storyteller. Your task is to write a short, compelling, and creative fictional story based on the user's idea. The story should have a clear beginning, middle, and end."
    ++ [10; 10]
    ++ lit "**User's Idea:** " ++ [34] ++ prompt_text ++ [34; 10; 10]
    ++ lit "**Your Story:**" ++ [10] in
  let config := {| temperature := 0.8; top_p := 0.95; max_output_tokens := 1024 |} in
  generate_content w (trace s) (lit "gemini-1.5-flash-latest") full_prompt (Some config)
    = LlmReturns (RespText reply) →
  Title.generate_fictional_story w key prompt_text s
  = (Return (strip reply),
     logged [GenerateContent (lit "gemini-1.5-flash-latest") full_prompt (Some config)] s).
Proof.
  intros Hk full_prompt config Hg. unfold Title.generate_fictional_story.
  destruct key as [|c k]; [done|]. simpl.
  assert (Title.story_prompt prompt_text = full_prompt) as ->.
  { unfold Title.story_prompt, full_prompt, newline, dquote. reflexivity. }
  unfold try_except, bind at 1, generate_content_call.
  change gemini_model with (lit "gemini-1.5-flash-latest").
  change Title.story_config with config. rewrite Hg. by run.
Qed.

Lemma story_prompt_and_result_witness :
  lit "g-key" ≠ []
  ∧ (Title.generate_fictional_story Examples.good (lit "g-key") (lit "a dragon")
       Examples.fresh).1
    = Return (lit "Once upon a time.").
Proof.
  split; [by vm_compute|].
  rewrite (story_prompt_and_result Examples.good (lit "g-key") (lit "a dragon")
             (lit "  Once upon a time. " ++ newline) Examples.fresh); by vm_compute.
Defined.

(** X18.  [generate_fictional_story] always answers with a text.  Whatever
    the model call does (return, return nothing readable, raise) no
    exception leaves the function; it calls the model once when a key is
    set and not at all otherwise, shows nothing through the interface and
    never answers with the empty string unless the model's own text is
    blank. *)
Theorem story_generator_always_answers
    (w : World) (key prompt_text : str) (s : state) :
  ∃ story,
    Title.generate_fictional_story w key prompt_text s
    = (Return story,
       logged (if truthy key
               then [GenerateContent gemini_model (Title.story_prompt prompt_text)
                       (Some Title.story_config)]
               else []) s)
    ∧ (story = []
       → ∃ reply, generate_content w (trace s) gemini_model
                    (Title.story_prompt prompt_text) (Some Title.story_config)
                  = LlmReturns (RespText reply)
                  ∧ strip reply = []).
Proof.
  unfold Title.generate_fictional_story. destruct (truthy key); simpl.
  - unfold try_except, bind at 1, generate_content_call. fold gemini_model.
    destruct (generate_content w (trace s) gemini_model _ _) as [[reply|e|e]|e] eqn:Hg;
      run; eexists; (split; [reflexivity|]); intros Hs.
    + by exists reply.
    + by apply app_eq_nil in Hs as [Hs _].
    + by vm_compute in Hs.
    + by apply app_eq_nil in Hs as [Hs _].
  - eexists. rewrite logged_nil. split; [reflexivity|]. intros Hs. by vm_compute in Hs.
Qed.

(** * From the selector to the request *)

Lemma voice_block_pick (voices_data : list (str * option str)) (index : nat)
    (name : str) (id : option str) :
  Voices.options voices_data !! index = Some name →
  last (filter (λ v, v.1 = name) voices_data) = Some (name, id) →
  Voices.voice_block (inr voices_data) index = inr (name, id).
Proof.
  intros Hn Hl. unfold Voices.voice_block, Voices.selectbox.
  fold (Voices.options voices_data). rewrite Hn.
  by rewrite voice_map_get, Hl.
Qed.

Lemma history_logged_eq (evs : list event) (s : state) :
  history (logged evs s) = history s.
Proof. done. Qed.

Lemma new_events_initialised (evs : list event) (s : state) :
  new_events s (logged evs (initialised s)) = evs.
Proof.
  apply new_events_extends. rewrite trace_logged.
  by destruct (initialised_spec s) as (-> & _).
Qed.

(** X19.  The picked voice is the one used.  On a session whose key is
    cached, when the user picks a name of the fetched catalog and presses
    the button, every synthesis request of that run goes to the
    text-to-speech URL of the identifier the catalog gives last for that
    name, with the cached key in its headers, and a record created by the
    run carries the picked name. *)
Theorem picked_voice_reaches_the_request
    (w : World) (p : Main.page) (s : state) (key name id : str)
    (voices_data : list (str * option str)) (index : nat) :
  resource_cache s = Some key →
  Main.voice_choice p = Voices.voice_block (inr voices_data) index →
  Voices.options voices_data !! index = Some name →
  last (filter (λ v, v.1 = name) voices_data) = Some (name, Some id) →
  Main.button p = true →
  let s' := (Main.script w p s).2 in
  Forall (λ ev, is_post ev = true →
                ∃ body, ev = RequestsPost
                               (lit "https://api.elevenlabs.io/v1/text-to-speech/" ++ id)
                               body
                               [ (lit "Accept", lit "audio/mpeg");
                                 (lit "Content-Type", lit "application/json");
                                 (lit "xi-api-key", key) ])
         (new_events s s')
  ∧ (∀ e, generated s s' = Some e → voice_name e = name).
Proof.
  intros Hc Hv Hn Hl Hb s'. subst s'.
  rewrite script_paths, startup_run, Hc, Hv, (voice_block_pick _ _ _ _ Hn Hl), Hb.
  simpl. rewrite generate_audiobook_paths, !trace_logged.
  set (good := λ ev : event,
         is_post ev = true →
         ∃ body, ev = RequestsPost (lit "https://api.elevenlabs.io/v1/text-to-speech/" ++ id)
                        body
                        [ (lit "Accept", lit "audio/mpeg");
                          (lit "Content-Type", lit "application/json");
                          (lit "xi-api-key", key) ]).
  assert (Forall good (input_events p) ∧ existsb is_success (input_events p) = false)
    as [Gi Si] by (unfold input_events; repeat case_match; by repeat constructor).
  assert (good (voices_request key)) as Gv by done.
  assert (∀ evs o, Forall good evs → existsb is_success evs = false →
            Forall good
              (new_events s (o : outcome (),
                             logged evs (logged [voices_request key]
                               (logged (input_events p) (initialised s)))).2)
            ∧ (∀ e, generated s (o, logged evs (logged [voices_request key]
                               (logged (input_events p) (initialised s)))).2 = Some e →
                    voice_name e = name)) as Hcase.
  { intros evs o Hg Hok. simpl. unfold generated.
    rewrite !logged_logged, new_events_initialised, !existsb_app, Hok, Si.
    simpl. split; [|done]. apply Forall_app. split; [done|]. by constructor. }
  assert (∀ body, good (RequestsPost (Main.tts_url (Some id)) body (Main.tts_headers key)))
    as Gp by (intros body _; by exists body).
  destruct (truthy (page_text p) && truthy (Some id));
    [|apply Hcase; [by repeat constructor | done]].
  destruct (generate_content w _ gemini_model _ None) as [[reply|e|e]|e];
    try (apply Hcase; [by repeat constructor | done]).
  destruct (truthy (strip reply)); [|apply Hcase; [by repeat constructor | done]].
  destruct (requests_post w _ _ _ _) as [r|e];
    [|apply Hcase; [repeat constructor; (done || apply Gp) | done]].
  destruct (status_code r =? 200)%Z;
    [|apply Hcase; [repeat constructor; (done || apply Gp) | done]].
  destruct (truthy (content r));
    [|apply Hcase; [repeat constructor; (done || apply Gp) | done]].
  destruct (initialised_spec s) as (Ti & Hi & _).
  rewrite !history_logged_eq, Hi. simpl.
  unfold generated, new_events, Main.latest. simpl.
  rewrite Ti, <- !app_assoc, drop_app_length, !existsb_app. simpl.
  rewrite orb_true_r. simpl. split.
  - apply Forall_app. split; [done|]. repeat constructor; (done || apply Gp).
  - by intros e [= <-].
Qed.

Lemma picked_voice_reaches_the_request_witness :
  resource_cache Examples.ready = Some (lit "xi-key")
  ∧ Voices.options Scenarios.catalog !! 0%nat = Some (lit "Rachel")
  ∧ (∀ e, generated Examples.ready
            (Main.script Examples.good Scenarios.pick_first Examples.ready).2 = Some e →
          voice_name e = lit "Rachel").
Proof.
  split; [done|]. split; [by vm_compute|].
  refine (proj2 (picked_voice_reaches_the_request Examples.good Scenarios.pick_first
                   Examples.ready (lit "xi-key") (lit "Rachel") (lit "zzz99")
                   Scenarios.catalog 0 _ _ _ _ _)); by vm_compute.
Defined.
